(** * script.js: the particle background, the resize handler, the top-level
      script and the contact-form handler, as a shallow embedding.

    JavaScript numbers are IEEE-754 doubles: they are modelled by Rocq's
    primitive binary64 floats, so [+], [-], [*] and [/] below round exactly as
    the script's do.  Module-level [let] variables that start out
    [undefined] are [option]s.  An exception leaves every mutation made
    before it in place, so an outcome carries the state in both cases. *)

From Stdlib Require Import Floats List String Bool Arith NArith Lia.
From Stdlib Require Import DecimalString.
Import ListNotations.

#[local] Set Warnings "-inexact-float".
#[local] Open Scope string_scope.
#[local] Open Scope float_scope.

(* ================================================================== *)
(** ** Values and the objects of the graphics library *)

(** The two kinds of JavaScript value the script passes to the library's
    setters: a number, or [undefined]. *)
Inductive value : Type :=
| VUndefined
| VNum (x : float).

(** A [Vector3] or an [Euler]: three components, stored as given. *)
Record Triple3 : Type := mk3 { cx : value; cy : value; cz : value }.

Definition triple_set (x y z : value) (_ : Triple3) : Triple3 := mk3 x y z.

(** [new THREE.Mesh(geometry, material)]: geometry and material are the
    same two objects for every particle, so only the transform is kept. *)
Record Mesh : Type := mkMesh
  { position : Triple3; rotation : Triple3; scale : Triple3 }.

Definition new_Mesh : Mesh :=
  mkMesh (mk3 (VNum 0) (VNum 0) (VNum 0))
         (mk3 (VNum 0) (VNum 0) (VNum 0))
         (mk3 (VNum 1) (VNum 1) (VNum 1)).

(** [new THREE.Group()]: its own rotation, and its children in the order
    they were added. *)
Record Group : Type := mkGroup
  { rotation_x : float; rotation_y : float; rotation_z : float;
    children : list Mesh }.

Definition new_Group : Group := mkGroup 0 0 0 [].

Definition group_add (p : Mesh) (g : Group) : Group :=
  mkGroup (rotation_x g) (rotation_y g) (rotation_z g) (children g ++ [p]).

Record Camera : Type := mkCamera
  { fov : float; aspect : float; near : float; far : float;
    position_z : float;
    (* the aspect the projection matrix was last computed from *)
    projection_aspect : float }.

Definition new_PerspectiveCamera (f a n fa : float) : Camera :=
  mkCamera f a n fa 0 a.

Record Renderer : Type := mkRenderer
  { alpha : bool;
    size : option (float * float);
    pixelRatio : float;
    clearColor : N; clearAlpha : float;
    frames : nat }.

Definition new_WebGLRenderer (a : bool) : Renderer :=
  mkRenderer a None 1 0%N (if a then 0 else 1) 0.

Inductive Object3D : Type :=
| TheGroup                       (* the object the global [group] holds *)
| AmbientLight (color : N) (intensity : float)
| PointLight (color : N) (intensity : float) (pos : Triple3).

Record Scene : Type := mkScene { objects : list Object3D }.

(** The element with id [bg-canvas]. *)
Record Canvas : Type := mkCanvas { style_display : string }.

(** Calls into the library, by call site ([i] is the loop index). *)
Inductive Call : Type :=
| NewScene | NewPerspectiveCamera | NewWebGLRenderer
| SetSize | SetPixelRatio | SetClearColor
| NewGroup | NewOctahedronGeometry | NewMeshStandardMaterial
| NewMesh (i : nat) | PositionSet (i : nat) | RotationSet (i : nat)
| ScaleSet (i : nat) | GroupAdd (i : nat)
| SceneAdd | NewAmbientLight | NewPointLight | PointLightPositionSet
| UpdateProjectionMatrix | Render.

Inductive error : Type :=
| TypeError (msg : string)        (* a property of undefined, or a call of a non-function *)
| LibraryError (c : Call)         (* whatever the library call [c] threw *)
| SyntaxError (msg : string)      (* JSON.parse *)
| FirestoreError (msg : string)   (* a rejected promise of the document store *)
| Error (msg : string).

(** One [console.error] call: the message and the error object, if any. *)
Inductive LogEntry : Type := Log (msg : string) (err : option error).

(* ================================================================== *)
(** ** The state/exception monad *)

Inductive Outcome (S A : Type) : Type :=
| Ok (a : A) (st : S)
| Throw (e : error) (st : S).
Arguments Ok {S A} a st.
Arguments Throw {S A} e st.

Definition M (S A : Type) : Type := S -> Outcome S A.

Definition ret {S A} (a : A) : M S A := fun st => Ok a st.

Definition bind {S A B} (m : M S A) (f : A -> M S B) : M S B :=
  fun st => match m st with
            | Ok a st' => f a st'
            | Throw e st' => Throw e st'
            end.

Definition throw {S A} (e : error) : M S A := fun st => Throw e st.

Definition gets {S A} (f : S -> A) : M S A := fun st => Ok (f st) st.

Definition modify {S} (f : S -> S) : M S unit := fun st => Ok tt (f st).

(** [try { body } catch (error) { handler error }] *)
Definition try_catch {S A} (body : M S A) (handler : error -> M S A) : M S A :=
  fun st => match body st with
            | Ok a st' => Ok a st'
            | Throw e st' => handler e st'
            end.

(** [try { body } finally { fin }]: [fin] runs either way; when it
    completes, the outcome of [body] stands. *)
Definition try_finally {S A} (body : M S A) (fin : M S unit) : M S A :=
  fun st => match body st with
            | Ok a st' => match fin st' with
                          | Ok _ st'' => Ok a st''
                          | Throw e st'' => Throw e st''
                          end
            | Throw e st' => match fin st' with
                             | Ok _ st'' => Throw e st''
                             | Throw e' st'' => Throw e' st''
                             end
            end.

(** The state an invocation leaves behind, however it ended. *)
Definition final {S A} (o : Outcome S A) : S :=
  match o with Ok _ st => st | Throw _ st => st end.

Declare Scope js_scope.
Delimit Scope js_scope with js.
Notation "x <- m ;; k" := (bind m (fun x => k))
  (at level 61, m at next level, right associativity) : js_scope.
Notation "m ;; k" := (bind m (fun _ => k))
  (at level 61, right associativity) : js_scope.
#[local] Open Scope js_scope.

(* ================================================================== *)
(** ** The background's state and its host *)

(** The module-level variables [scene], [camera], [renderer], [group]
    ([particles] is declared and never used), and what the script touches
    of the page: the canvas element, the console, the resize listener and
    the pending animation-frame callbacks.  [random_calls] counts the
    calls of [Math.random] the script itself makes, and [console] holds
    the script's own [console.error] calls: what the library draws or logs
    inside its own code is not recorded.  [calls] is the log of library
    calls. *)
Record State : Type := mkState
  { scene : option Scene;
    camera : option Camera;
    renderer : option Renderer;
    group : option Group;
    canvas : option Canvas;
    console : list LogEntry;
    resize_listener : bool;
    frame_requests : nat;
    random_calls : nat;
    calls : list Call }.

Definition set_scene (v : option Scene) (s : State) : State :=
  mkState v (camera s) (renderer s) (group s) (canvas s) (console s)
          (resize_listener s) (frame_requests s) (random_calls s) (calls s).
Definition set_camera (v : option Camera) (s : State) : State :=
  mkState (scene s) v (renderer s) (group s) (canvas s) (console s)
          (resize_listener s) (frame_requests s) (random_calls s) (calls s).
Definition set_renderer (v : option Renderer) (s : State) : State :=
  mkState (scene s) (camera s) v (group s) (canvas s) (console s)
          (resize_listener s) (frame_requests s) (random_calls s) (calls s).
Definition set_group (v : option Group) (s : State) : State :=
  mkState (scene s) (camera s) (renderer s) v (canvas s) (console s)
          (resize_listener s) (frame_requests s) (random_calls s) (calls s).
Definition set_canvas (v : option Canvas) (s : State) : State :=
  mkState (scene s) (camera s) (renderer s) (group s) v (console s)
          (resize_listener s) (frame_requests s) (random_calls s) (calls s).
Definition set_console (v : list LogEntry) (s : State) : State :=
  mkState (scene s) (camera s) (renderer s) (group s) (canvas s) v
          (resize_listener s) (frame_requests s) (random_calls s) (calls s).
Definition set_resize_listener (v : bool) (s : State) : State :=
  mkState (scene s) (camera s) (renderer s) (group s) (canvas s) (console s)
          v (frame_requests s) (random_calls s) (calls s).
Definition set_frame_requests (v : nat) (s : State) : State :=
  mkState (scene s) (camera s) (renderer s) (group s) (canvas s) (console s)
          (resize_listener s) v (random_calls s) (calls s).
Definition set_random_calls (v : nat) (s : State) : State :=
  mkState (scene s) (camera s) (renderer s) (group s) (canvas s) (console s)
          (resize_listener s) (frame_requests s) v (calls s).
Definition set_calls (v : list Call) (s : State) : State :=
  mkState (scene s) (camera s) (renderer s) (group s) (canvas s) (console s)
          (resize_listener s) (frame_requests s) (random_calls s) v.

(** The page before the script runs: nothing assigned, nothing logged. *)
Definition initial_state (cv : option Canvas) : State :=
  mkState None None None None cv [] false 0 0 [].

(** What the host decides: the viewport, the device pixel ratio, the
    numbers [Math.random] returns to the script (by the number of the
    script's own call: the draws the library makes inside its
    constructors are not among them), and which library calls throw
    (given the calls made so far; [THREE] being undefined makes the first
    constructor call throw). *)
Record Host : Type := mkHost
  { innerWidth : float;
    innerHeight : float;
    devicePixelRatio : float;
    random : nat -> float;
    lib_throws : list Call -> Call -> bool }.

(** [Math.min] on two numbers: NaN if either is, and -0 below +0. *)
Definition Math_min (a b : float) : float :=
  if is_nan a || is_nan b then nan
  else if a <? b then a
  else if b <? a then b
  else if is_zero a && get_sign a then a else b.

Definition Math_PI : float := 0x1.921fb54442d18p+1.

Definition particleCount : nat := 500.

(** The per-frame angle. *)
Definition rotation_step : float := 0.0005.

(* ================================================================== *)
(** ** The background: [init3DBackground], [onWindowResize], [animate] *)

Section Background.

Variable h : Host.

(** A call into the library: logged, and it throws when the host says so.
    Only the call and its outcome are modelled, not what the library does
    inside (its own random draws, its own console output). *)
Definition lib (c : Call) : M State unit :=
  fun st =>
    let st' := set_calls (calls st ++ [c]) st in
    if lib_throws h (calls st) c then Throw (LibraryError c) st' else Ok tt st'.

Definition Math_random : M State float :=
  fun st => Ok (random h (random_calls st))
               (set_random_calls (S (random_calls st)) st).

Definition console_error (msg : string) (e : option error) : M State unit :=
  modify (fun st => set_console (console st ++ [Log msg e]) st).

(** Reading a property of a module-level variable: a TypeError while the
    variable is still undefined. *)
Definition deref {A} (name : string) (f : State -> option A) : M State A :=
  fun st => match f st with
            | Some a => Ok a st
            | None => Throw (TypeError (name ++ " is undefined")) st
            end.

Definition requestAnimationFrame : M State unit :=
  modify (fun st => set_frame_requests (S (frame_requests st)) st).

(** The body of the [for] loop, [n] iterations from index [i] on. *)
Fixpoint create_particles (n i : nat) : M State unit :=
  match n with
  | O => ret tt
  | S n' =>
      lib (NewMesh i) ;;
      (* Random position in a large box *)
      r1 <- Math_random ;;
      r2 <- Math_random ;;
      r3 <- Math_random ;;
      let x := (r1 - 0.5) * 50 in
      let y := (r2 - 0.5) * 50 in
      let z := (r3 - 0.5) * 50 in
      lib (PositionSet i) ;;
      let particle :=
        mkMesh (triple_set (VNum x) (VNum y) (VNum z) (position new_Mesh))
               (rotation new_Mesh) (scale new_Mesh) in
      (* Random rotation: the second argument is Math.react, a property
         Math does not have *)
      r4 <- Math_random ;;
      r5 <- Math_random ;;
      lib (RotationSet i) ;;
      let particle :=
        mkMesh (position particle)
               (triple_set (VNum (r4 * Math_PI)) VUndefined (VNum (r5 * Math_PI))
                           (rotation particle))
               (scale particle) in
      (* Random scale *)
      r6 <- Math_random ;;
      let s := r6 * 0.5 + 0.5 in
      lib (ScaleSet i) ;;
      let particle :=
        mkMesh (position particle) (rotation particle)
               (triple_set (VNum s) (VNum s) (VNum s) (scale particle)) in
      g <- deref "group" group ;;
      lib (GroupAdd i) ;;
      modify (set_group (Some (group_add particle g))) ;;
      create_particles n' (S i)
  end.

Definition animate : M State unit :=
  requestAnimationFrame ;;
  (* Rotate the particle group *)
  g <- gets group ;;
  match g with
  | Some g =>
      modify (set_group (Some (mkGroup (rotation_x g + rotation_step)
                                       (rotation_y g) (rotation_z g)
                                       (children g)))) ;;
      g <- deref "group" group ;;
      modify (set_group (Some (mkGroup (rotation_x g)
                                       (rotation_y g + rotation_step)
                                       (rotation_z g) (children g))))
  | None => ret tt
  end ;;
  r <- deref "renderer" renderer ;;
  lib Render ;;
  modify (set_renderer (Some (mkRenderer (alpha r) (size r) (pixelRatio r)
                                         (clearColor r) (clearAlpha r)
                                         (S (frames r))))).

(** The statements inside [try { ... }]. *)
Definition init_try : M State unit :=
  cv <- gets canvas ;;
  match cv with
  | None => console_error "3D Canvas not found." None     (* return *)
  | Some _ =>
      (* 1. Scene *)
      lib NewScene ;;
      modify (set_scene (Some (mkScene []))) ;;
      (* 2. Camera *)
      lib NewPerspectiveCamera ;;
      modify (set_camera (Some (new_PerspectiveCamera
                                  75 (innerWidth h / innerHeight h) 0.1 1000))) ;;
      c <- deref "camera" camera ;;
      modify (set_camera (Some (mkCamera (fov c) (aspect c) (near c) (far c)
                                         15 (projection_aspect c)))) ;;
      (* 3. Renderer *)
      lib NewWebGLRenderer ;;
      modify (set_renderer (Some (new_WebGLRenderer true))) ;;
      r <- deref "renderer" renderer ;;
      lib SetSize ;;
      modify (set_renderer (Some (mkRenderer (alpha r)
                                    (Some (innerWidth h, innerHeight h))
                                    (pixelRatio r) (clearColor r) (clearAlpha r)
                                    (frames r)))) ;;
      r <- deref "renderer" renderer ;;
      lib SetPixelRatio ;;
      modify (set_renderer (Some (mkRenderer (alpha r) (size r)
                                    (Math_min (devicePixelRatio h) 2)
                                    (clearColor r) (clearAlpha r) (frames r)))) ;;
      r <- deref "renderer" renderer ;;
      lib SetClearColor ;;
      modify (set_renderer (Some (mkRenderer (alpha r) (size r) (pixelRatio r)
                                    0x0A192F%N 1 (frames r)))) ;;
      (* 4. Create Particles *)
      lib NewGroup ;;
      modify (set_group (Some new_Group)) ;;
      lib NewOctahedronGeometry ;;
      lib NewMeshStandardMaterial ;;
      create_particles particleCount 0 ;;
      s <- deref "scene" scene ;;
      lib SceneAdd ;;
      modify (set_scene (Some (mkScene (objects s ++ [TheGroup])))) ;;
      (* 5. Lighting *)
      lib NewAmbientLight ;;
      s <- deref "scene" scene ;;
      lib SceneAdd ;;
      modify (set_scene (Some (mkScene (objects s ++ [AmbientLight 0xffffff%N 0.2])))) ;;
      lib NewPointLight ;;
      lib PointLightPositionSet ;;
      s <- deref "scene" scene ;;
      lib SceneAdd ;;
      modify (set_scene (Some (mkScene
        (objects s ++ [PointLight 0xffffff%N 1 (mk3 (VNum 5) (VNum 5) (VNum 5))])))) ;;
      (* 6. Handle Window Resize *)
      modify (set_resize_listener true) ;;
      (* 7. Start Animation *)
      animate
  end.

(** The [catch (error) { ... }] block. *)
Definition init_catch (e : error) : M State unit :=
  console_error "Error initializing 3D background:" (Some e) ;;
  (* Hide canvas if it fails *)
  cv <- gets canvas ;;
  match cv with
  | Some _ => modify (set_canvas (Some (mkCanvas "none")))
  | None => ret tt
  end.

Definition init3DBackground : M State unit := try_catch init_try init_catch.

Definition onWindowResize : M State unit :=
  c <- deref "camera" camera ;;
  modify (set_camera (Some (mkCamera (fov c) (innerWidth h / innerHeight h)
                                     (near c) (far c) (position_z c)
                                     (projection_aspect c)))) ;;
  c <- deref "camera" camera ;;
  lib UpdateProjectionMatrix ;;
  modify (set_camera (Some (mkCamera (fov c) (aspect c) (near c) (far c)
                                     (position_z c) (aspect c)))) ;;
  r <- deref "renderer" renderer ;;
  lib SetSize ;;
  modify (set_renderer (Some (mkRenderer (alpha r)
                                (Some (innerWidth h, innerHeight h))
                                (pixelRatio r) (clearColor r) (clearAlpha r)
                                (frames r)))) ;;
  r <- deref "renderer" renderer ;;
  lib SetPixelRatio ;;
  modify (set_renderer (Some (mkRenderer (alpha r) (size r)
                                (Math_min (devicePixelRatio h) 2)
                                (clearColor r) (clearAlpha r) (frames r)))).

(** [n] frames in a row: the host runs the callback once per frame and
    goes on to the next frame whether or not the callback threw. *)
Fixpoint ticks (n : nat) (st : State) : State :=
  match n with
  | O => st
  | S n' => ticks n' (final (animate st))
  end.

End Background.

(** [n] additions of the step, as [animate] performs them. *)
Fixpoint accumulate (n : nat) (r : float) : float :=
  match n with
  | O => r
  | S n' => accumulate n' (r + rotation_step)
  end.

(** A host for the examples: an 800 by 600 viewport, pixel ratio 3,
    [Math.random] returning 0.5 every time, a library that never throws. *)
Definition host0 : Host :=
  mkHost 800 600 3 (fun _ => 0.5) (fun _ _ => false).

Definition canvas0 : Canvas := mkCanvas "".

(** Whether the variable has been assigned. *)
Definition assigned {A} (o : option A) : bool :=
  match o with Some _ => true | None => false end.

(* ================================================================== *)
(** ** The page script: Firebase bootstrap and the contact form *)

Record Button : Type := mkButton { disabled : bool; innerHTML : string }.

Record Message : Type := mkMessage { className : string; textContent : string }.

(** A document handed to [addDoc]; [createdAt] is the server's to fill in. *)
Record Doc : Type := mkDoc
  { doc_collection : string; doc_name : string; doc_email : string;
    doc_message : string; doc_status : string }.

(** The module-level variables of the second half of the script ([db],
    [auth], [userId]) and the elements it touches.  An input is [None]
    when the document has no such element.  [initializeFirebase_calls]
    counts the invocations of [initializeFirebase]. *)
Record Page : Type := mkPage
  { background : State;
    db : option unit;
    auth : option unit;
    userId : option string;
    domContentLoaded_listeners : nat;
    initializeFirebase_calls : nat;
    user_id_display : option string;
    submitButton : Button;
    formMessage : Message;
    name_input : option string;
    email_input : option string;
    message_input : option string;
    store : list Doc;
    page_console : list LogEntry }.

Definition set_background (v : State) (p : Page) : Page :=
  mkPage v (db p) (auth p) (userId p) (domContentLoaded_listeners p)
         (initializeFirebase_calls p) (user_id_display p) (submitButton p)
         (formMessage p) (name_input p) (email_input p) (message_input p)
         (store p) (page_console p).
Definition set_db (v : option unit) (p : Page) : Page :=
  mkPage (background p) v (auth p) (userId p) (domContentLoaded_listeners p)
         (initializeFirebase_calls p) (user_id_display p) (submitButton p)
         (formMessage p) (name_input p) (email_input p) (message_input p)
         (store p) (page_console p).
Definition set_auth (v : option unit) (p : Page) : Page :=
  mkPage (background p) (db p) v (userId p) (domContentLoaded_listeners p)
         (initializeFirebase_calls p) (user_id_display p) (submitButton p)
         (formMessage p) (name_input p) (email_input p) (message_input p)
         (store p) (page_console p).
Definition set_userId (v : option string) (p : Page) : Page :=
  mkPage (background p) (db p) (auth p) v (domContentLoaded_listeners p)
         (initializeFirebase_calls p) (user_id_display p) (submitButton p)
         (formMessage p) (name_input p) (email_input p) (message_input p)
         (store p) (page_console p).
Definition set_domContentLoaded_listeners (v : nat) (p : Page) : Page :=
  mkPage (background p) (db p) (auth p) (userId p) v
         (initializeFirebase_calls p) (user_id_display p) (submitButton p)
         (formMessage p) (name_input p) (email_input p) (message_input p)
         (store p) (page_console p).
Definition set_initializeFirebase_calls (v : nat) (p : Page) : Page :=
  mkPage (background p) (db p) (auth p) (userId p) (domContentLoaded_listeners p)
         v (user_id_display p) (submitButton p)
         (formMessage p) (name_input p) (email_input p) (message_input p)
         (store p) (page_console p).
Definition set_user_id_display (v : option string) (p : Page) : Page :=
  mkPage (background p) (db p) (auth p) (userId p) (domContentLoaded_listeners p)
         (initializeFirebase_calls p) v (submitButton p)
         (formMessage p) (name_input p) (email_input p) (message_input p)
         (store p) (page_console p).
Definition set_submitButton (v : Button) (p : Page) : Page :=
  mkPage (background p) (db p) (auth p) (userId p) (domContentLoaded_listeners p)
         (initializeFirebase_calls p) (user_id_display p) v
         (formMessage p) (name_input p) (email_input p) (message_input p)
         (store p) (page_console p).
Definition set_formMessage (v : Message) (p : Page) : Page :=
  mkPage (background p) (db p) (auth p) (userId p) (domContentLoaded_listeners p)
         (initializeFirebase_calls p) (user_id_display p) (submitButton p)
         v (name_input p) (email_input p) (message_input p)
         (store p) (page_console p).
Definition set_inputs (n e m : option string) (p : Page) : Page :=
  mkPage (background p) (db p) (auth p) (userId p) (domContentLoaded_listeners p)
         (initializeFirebase_calls p) (user_id_display p) (submitButton p)
         (formMessage p) n e m (store p) (page_console p).
Definition set_store (v : list Doc) (p : Page) : Page :=
  mkPage (background p) (db p) (auth p) (userId p) (domContentLoaded_listeners p)
         (initializeFirebase_calls p) (user_id_display p) (submitButton p)
         (formMessage p) (name_input p) (email_input p) (message_input p)
         v (page_console p).
Definition set_page_console (v : list LogEntry) (p : Page) : Page :=
  mkPage (background p) (db p) (auth p) (userId p) (domContentLoaded_listeners p)
         (initializeFirebase_calls p) (user_id_display p) (submitButton p)
         (formMessage p) (name_input p) (email_input p) (message_input p)
         (store p) v.

(** The text handed to [JSON.parse]: [__firebase_config] when the
    environment injected it, and then well-formed JSON or not. *)
Inductive Injected : Type :=
| NotInjected
| InjectedText (well_formed : bool).

Inductive FirebaseCall : Type :=
| InitializeApp | GetFirestore | GetAuth
| SignInWithCustomToken | SignInAnonymously
| CollectionRef | AddDoc.

(** What the environment and the Firebase modules decide. *)
Record Services : Type := mkServices
  { firebase_config : Injected;
    app_id : option string;              (* __app_id *)
    initial_auth_token : option string;  (* __initial_auth_token *)
    firebase_fails : FirebaseCall -> bool;
    currentUser_uid : option string;     (* auth.currentUser?.uid after sign-in *)
    randomUUID : string }.

(** Truthiness of a string-valued variable: [undefined], [null] and the
    empty string are falsy. *)
Definition truthy (o : option string) : bool :=
  match o with
  | Some s => negb (String.eqb s "")
  | None => false
  end.

Definition quote : string := String (Ascii.ascii_of_nat 34) EmptyString.



Section PageScript.

Variable sv : Services.

Definition appId : string :=
  match app_id sv with Some a => a | None => "default-app-id" end.

Definition firebase (c : FirebaseCall) (msg : string) : M Page unit :=
  fun p => if firebase_fails sv c then Throw (FirestoreError msg) p else Ok tt p.

Definition page_console_error (msg : string) (e : option error) : M Page unit :=
  modify (fun p => set_page_console (page_console p ++ [Log msg e]) p).

(** [el.textContent = text] for [#user-id-display], guarded by [if (el)]. *)
Definition show_user_id (text : string) : M Page unit :=
  modify (fun p => match user_id_display p with
                   | Some _ => set_user_id_display (Some text) p
                   | None => p
                   end).

(** [initializeFirebase], its awaits taken in sequence. *)
Definition initializeFirebase : M Page unit :=
  modify (fun p => set_initializeFirebase_calls (S (initializeFirebase_calls p)) p) ;;
  try_catch
    (firebase InitializeApp "initializeApp" ;;
     firebase GetFirestore "getFirestore" ;;
     modify (set_db (Some tt)) ;;
     firebase GetAuth "getAuth" ;;
     modify (set_auth (Some tt)) ;;
     (* Sign in *)
     (if truthy (initial_auth_token sv)
      then firebase SignInWithCustomToken "signInWithCustomToken"
      else firebase SignInAnonymously "signInAnonymously") ;;
     let uid := if truthy (currentUser_uid sv)
                then currentUser_uid sv
                else Some ("anon-" ++ randomUUID sv) in
     modify (set_userId uid) ;;
     show_user_id ("User ID: " ++ match uid with Some u => u | None => "" end))
    (fun e =>
       page_console_error "Firebase Initialization Error:" (Some e) ;;
       show_user_id "Firebase failed to load.").



(** [document.getElementById(id).value] *)
Definition input_value (id : string) (f : Page -> option string) : M Page string :=
  fun p => match f p with
           | Some v => Ok v p
           | None => Throw (TypeError ("document.getElementById('" ++ id ++ "') is null")) p
           end.

Definition sending_label : string :=
  "<span classclass=" ++ quote ++ "animate-spin mr-2" ++ quote ++ ">...</span>Sending...".

(** Assignments to one property of an element. *)
Definition formMessage_textContent (t : string) : M Page unit :=
  modify (fun p => set_formMessage (mkMessage (className (formMessage p)) t) p).

Definition formMessage_className (c : string) : M Page unit :=
  modify (fun p => set_formMessage (mkMessage c (textContent (formMessage p))) p).

Definition submitButton_disabled (b : bool) : M Page unit :=
  modify (fun p => set_submitButton (mkButton b (innerHTML (submitButton p))) p).

Definition submitButton_innerHTML (t : string) : M Page unit :=
  modify (fun p => set_submitButton (mkButton (disabled (submitButton p)) t) p).

(** [contactForm.reset()]: every input of the form back to its default,
    the empty text. *)
Definition contactForm_reset : M Page unit :=
  modify (fun p => set_inputs (option_map (fun _ => "") (name_input p))
                              (option_map (fun _ => "") (email_input p))
                              (option_map (fun _ => "") (message_input p)) p).

(** The contact form's [submit] listener, its awaits taken in sequence:
    an awaited promise is fulfilled, or rejected and its reason thrown. *)
Definition on_submit : M Page unit :=
  (* e.preventDefault() *)
  d <- gets db ;;
  u <- gets userId ;;
  (* Ensure Firebase is ready *)
  if negb (assigned d) || negb (truthy u) then
    formMessage_textContent "Error: Connection not established. Please refresh." ;;
    formMessage_className "mt-4 text-center text-red-400 text-sm font-medium"
    (* return *)
  else
    (* 1. Get form data *)
    name <- input_value "name" name_input ;;
    email <- input_value "email" email_input ;;
    message <- input_value "message" message_input ;;
    (* 2. Update UI to show loading *)
    originalButtonText <- gets (fun p => innerHTML (submitButton p)) ;;
    submitButton_disabled true ;;
    submitButton_innerHTML sending_label ;;
    formMessage_className "mt-4 text-center text-yellow-400 text-sm font-medium" ;;
    formMessage_textContent "Submitting message..." ;;
    try_finally
      (try_catch
         ((* 3. Save to Firestore (Private to the user) *)
          let collectionPath :=
            "/artifacts/" ++ appId ++ "/users/"
              ++ match u with Some s => s | None => "undefined" end
              ++ "/contact_messages" in
          firebase CollectionRef "collection" ;;
          firebase AddDoc "addDoc" ;;
          modify (fun p => set_store
                             (store p ++ [mkDoc collectionPath name email message "new"]) p) ;;
          (* 4. Mock email forwarding (client-side) *)
          let emailStatus := "success" in
          (* 5. Handle submission result *)
          if String.eqb emailStatus "success" then
            formMessage_className "mt-4 text-center text-green-400 text-sm font-medium" ;;
            formMessage_textContent
              ("Thanks for your response, " ++ name
               ++ "! Your message has been saved and forwarded.") ;;
            contactForm_reset
          else throw (Error "Mock email forwarding failed."))
         (fun e =>
            page_console_error "Form Submission Error:" (Some e) ;;
            formMessage_className "mt-4 text-center text-red-400 text-sm font-medium" ;;
            formMessage_textContent "An error occurred. Please try again later."))
      ((* 6. Restore button *)
       submitButton_disabled false ;;
       submitButton_innerHTML originalButtonText).


End PageScript.

(** The page before the script runs, with its form in place. *)
Definition page0 : Page :=
  mkPage (initial_state (Some canvas0)) None None None 0 0 (Some "")
         (mkButton false "Send Message") (mkMessage "" "")
         (Some "Ada") (Some "ada@example.org") (Some "Hello")
         [] [].

Definition services0 : Services :=
  mkServices NotInjected None None (fun _ => false) (Some "u1") "0000".

(* ================================================================== *)
(** ** The DOMContentLoaded listener: the wiring of the page *)

(** The four kinds of listener the callback registers. *)
Inductive Listener : Type :=
| ToggleMenu      (* () => mobileMenu.classList.toggle('hidden') *)
| HideMenu        (* () => mobileMenu.classList.add('hidden') *)
| SmoothScroll    (* function (e) { if (this.getAttribute('href').length > 1) ... } *)
| SubmitForm.     (* async (e) => { ... }, the listener [on_submit] models *)

(** An [a] element: its [href] attribute, whether it is inside
    [#mobile-menu], and its click listeners in registration order. *)
Record Anchor : Type := mkAnchor
  { href : option string; in_mobile_menu : bool; click : list Listener }.

(** [#contact-form]: whether it contains a [button[type="submit"]], and
    its submit listeners. *)
Record Form : Type := mkForm
  { has_submit_button : bool; submit : list Listener }.

(** What the callback and its listeners touch of the document.  An
    element the document lacks is [None] (or [false]).  [prevented] is
    the [defaultPrevented] flag of the event being dispatched;
    [scrolled] lists the ids of the elements scrolled into view. *)
Record Document : Type := mkDocument
  { year : option string;                  (* textContent of #year *)
    menu_button : option (list Listener);  (* click listeners of #menu-button *)
    mobile_menu : option (list string);    (* classList of #mobile-menu *)
    anchors : list Anchor;                 (* the a elements, in document order *)
    contact_form : option Form;
    form_message : bool;                   (* #form-message exists *)
    prevented : bool;
    scrolled : list string }.

Definition set_year (v : option string) (d : Document) : Document :=
  mkDocument v (menu_button d) (mobile_menu d) (anchors d) (contact_form d)
             (form_message d) (prevented d) (scrolled d).
Definition set_menu_button (v : option (list Listener)) (d : Document) : Document :=
  mkDocument (year d) v (mobile_menu d) (anchors d) (contact_form d)
             (form_message d) (prevented d) (scrolled d).
Definition set_mobile_menu (v : option (list string)) (d : Document) : Document :=
  mkDocument (year d) (menu_button d) v (anchors d) (contact_form d)
             (form_message d) (prevented d) (scrolled d).
Definition set_anchors (v : list Anchor) (d : Document) : Document :=
  mkDocument (year d) (menu_button d) (mobile_menu d) v (contact_form d)
             (form_message d) (prevented d) (scrolled d).
Definition set_contact_form (v : option Form) (d : Document) : Document :=
  mkDocument (year d) (menu_button d) (mobile_menu d) (anchors d) v
             (form_message d) (prevented d) (scrolled d).
Definition set_prevented (v : bool) (d : Document) : Document :=
  mkDocument (year d) (menu_button d) (mobile_menu d) (anchors d) (contact_form d)
             (form_message d) v (scrolled d).
Definition set_scrolled (v : list string) (d : Document) : Document :=
  mkDocument (year d) (menu_button d) (mobile_menu d) (anchors d) (contact_form d)
             (form_message d) (prevented d) v.

(** What [document.querySelector] makes of a selector. *)
Inductive Selected : Type :=
| InvalidSelector
| NoElement
| Element (id : string).

(** What the browser decides: the current year, and what a selector
    finds. *)
Record Browser : Type := mkBrowser
  { fullYear : N;
    querySelector : string -> Selected }.

(** A [DOMTokenList]: [contains], [add], [remove] and [toggle] of a token. *)
Definition classList_contains (t : string) (cl : list string) : bool :=
  existsb (String.eqb t) cl.

Definition classList_add (t : string) (cl : list string) : list string :=
  if classList_contains t cl then cl else cl ++ [t].

Definition classList_remove (t : string) (cl : list string) : list string :=
  filter (fun c => negb (String.eqb t c)) cl.

Definition classList_toggle (t : string) (cl : list string) : list string :=
  if classList_contains t cl then classList_remove t cl else cl ++ [t].

Definition add_click (l : Listener) (a : Anchor) : Anchor :=
  mkAnchor (href a) (in_mobile_menu a) (click a ++ [l]).

(** An anchor matched by [a[href^="#"]]. *)
Definition internal (a : Anchor) : bool :=
  match href a with
  | Some hr => prefix "#" hr
  | None => false
  end.

(** [mobileMenu.classList] changed by [f]; [mobileMenu] is the element the
    callback found. *)
Definition on_mobile_menu (f : list string -> list string) : M Document unit :=
  mm <- gets mobile_menu ;;
  match mm with
  | Some cl => modify (set_mobile_menu (Some (f cl)))
  | None => throw (TypeError "mobileMenu is null")
  end.

Section Wiring.

Variable b : Browser.

(** The click listener of an internal link, [this] being the anchor [a]. *)
Definition smooth_scroll (a : Anchor) : M Document unit :=
  match href a with
  | None => throw (TypeError "this.getAttribute(...) is null")
  | Some hr =>
      if (1 <? String.length hr)%nat then
        (* e.preventDefault() *)
        modify (set_prevented true) ;;
        match querySelector b hr with
        | InvalidSelector => throw (SyntaxError hr)
        | NoElement => ret tt
        | Element id =>
            (* targetElement.scrollIntoView({ behavior: 'smooth' }) *)
            modify (fun d => set_scrolled (scrolled d ++ [id]) d)
        end
      else ret tt
  end.

Definition listener (a : Anchor) (l : Listener) : M Document unit :=
  match l with
  | ToggleMenu => on_mobile_menu (classList_toggle "hidden")
  | HideMenu => on_mobile_menu (classList_add "hidden")
  | SmoothScroll => smooth_scroll a
  | SubmitForm => ret tt
  end.

(** The listeners of one event, in registration order; an exception in
    one is reported and the next still runs. *)
Fixpoint dispatch (a : Anchor) (ls : list Listener) (d : Document) : Document :=
  match ls with
  | [] => d
  | l :: ls' => dispatch a ls' (final (listener a l d))
  end.

(** A click on the anchor [a]. *)
Definition click_anchor (a : Anchor) (d : Document) : Document :=
  dispatch a (click a) (set_prevented false d).

(** A click on [#menu-button]. *)
Definition click_menu_button (d : Document) : Document :=
  match menu_button d with
  | Some ls => dispatch (mkAnchor None false []) ls (set_prevented false d)
  | None => d
  end.

(** The callback registered for DOMContentLoaded. *)
Definition on_DOMContentLoaded : M Document unit :=
  (* Set current year in footer *)
  y <- gets year ;;
  match y with
  | Some _ =>
      modify (set_year (Some (NilEmpty.string_of_uint (N.to_uint (fullYear b)))))
  | None => throw (TypeError "document.getElementById('year') is null")
  end ;;
  (* Mobile Menu Toggle Logic *)
  menuButton <- gets menu_button ;;
  mobileMenu <- gets mobile_menu ;;
  (if assigned menuButton && assigned mobileMenu then
     modify (fun d => set_menu_button
                        (option_map (fun ls => (ls ++ [ToggleMenu])%list) (menu_button d)) d) ;;
     (* Hide mobile menu when a link is clicked *)
     modify (fun d => set_anchors
                        (map (fun a => if in_mobile_menu a then add_click HideMenu a else a)
                             (anchors d)) d)
   else ret tt) ;;
  (* Smooth Scrolling (for internal links) *)
  modify (fun d => set_anchors
                     (map (fun a => if internal a then add_click SmoothScroll a else a)
                          (anchors d)) d) ;;
  (* Contact Form Submission Handler *)
  contactForm <- gets contact_form ;;
  formMessage <- gets form_message ;;
  let submitButton :=
    match contactForm with Some f => has_submit_button f | None => false end in
  if assigned contactForm && formMessage && submitButton then
    modify (fun d => set_contact_form
                       (option_map (fun f => mkForm (has_submit_button f)
                                                    (submit f ++ [SubmitForm]))
                                   (contact_form d)) d)
  else ret tt.

End Wiring.

(** A document with a menu of two links above a third link, and a form. *)
Definition document0 : Document :=
  mkDocument (Some "") (Some []) (Some ["md:hidden"; "hidden"])
             [mkAnchor (Some "#about") true [];
              mkAnchor (Some "https://example.org") true [];
              mkAnchor (Some "#") false []]
             (Some (mkForm true [])) true false [].

Definition browser0 : Browser :=
  mkBrowser 2026 (fun sel => if String.eqb sel "#about" then Element "about"
                             else NoElement).

(* ================================================================== *)
(** ** Vocabulary of the specifications *)

(** [wp m Q E st]: run from [st], [m] either returns [a] in a state with
    [Q a], or throws [e] in a state with [E e]. *)
Definition wp {S A} (m : M S A) (Q : A -> S -> Prop) (E : error -> S -> Prop)
  (st : S) : Prop :=
  match m st with
  | Ok a st' => Q a st'
  | Throw e st' => E e st'
  end.

Section Vocabulary.

Variable h : Host.

(** The particle the loop body builds when its first [Math.random] call
    is the script's call number [k]. *)
Definition particle_of (k : nat) : Mesh :=
  let s := random h (5 + k) * 0.5 + 0.5 in
  mkMesh (mk3 (VNum ((random h k - 0.5) * 50))
              (VNum ((random h (1 + k) - 0.5) * 50))
              (VNum ((random h (2 + k) - 0.5) * 50)))
         (mk3 (VNum (random h (3 + k) * Math_PI))
              VUndefined
              (VNum (random h (4 + k) * Math_PI)))
         (mk3 (VNum s) (VNum s) (VNum s)).

Fixpoint particles_from (k n : nat) : list Mesh :=
  match n with
  | O => []
  | S n' => particle_of k :: particles_from (6 + k) n'
  end.

(** The only exceptions a block raises on its own account are the ones
    the host's library raises. *)
Definition lib_threw (e : error) : Prop :=
  exists l c, e = LibraryError c /\ lib_throws h l c = true.

(** What the loop may change: the call log, the count of random numbers
    drawn, and the children of the group. *)
Definition loop_changed (st : State) (g : Group) (l : list Call) (k : nat)
  (ch : list Mesh) : State :=
  set_calls l (set_random_calls k
    (set_group (Some (mkGroup (rotation_x g) (rotation_y g) (rotation_z g) ch)) st)).

(** The state after the [try] block ran to its end from [st], with [l]
    the library calls it made. *)
Definition initialised (st : State) (l : list Call) : State :=
  mkState
    (Some (mkScene [TheGroup; AmbientLight 0xffffff%N 0.2;
                    PointLight 0xffffff%N 1 (mk3 (VNum 5) (VNum 5) (VNum 5))]))
    (Some (mkCamera 75 (innerWidth h / innerHeight h) 0.1 1000 15
                    (innerWidth h / innerHeight h)))
    (Some (mkRenderer true (Some (innerWidth h, innerHeight h))
                      (Math_min (devicePixelRatio h) 2) 0x0A192F%N 1 1))
    (Some (mkGroup (0 + rotation_step) (0 + rotation_step) 0
                   (particles_from (random_calls st) particleCount)))
    (canvas st) (console st) true (S (frame_requests st))
    (6 * particleCount + random_calls st) (calls st ++ l).

(** A library that never throws. *)
Definition quiet : Prop := forall l c, lib_throws h l c = false.

End Vocabulary.

(** What one frame does to the group. *)
Definition rotate (g : Group) : Group :=
  mkGroup (rotation_x g + rotation_step) (rotation_y g + rotation_step)
          (rotation_z g) (children g).

(** The group's two animated angles agree. *)
Definition balanced (st : State) : Prop :=
  match group st with
  | Some g => rotation_x g = rotation_y g
  | None => True
  end.

(** However the initialisation ends, and from whatever state it starts:
    the group is the old one or a balanced new one, and an assigned camera
    or renderer stays assigned. *)
Definition init_changes (st st' : State) : Prop :=
  (group st' = group st \/ balanced st') /\
  (assigned (camera st) = true -> assigned (camera st') = true) /\
  (assigned (renderer st) = true -> assigned (renderer st') = true).

(** What the host may do to the page, each time with the viewport and
    library behaviour of the moment: run the script's call of
    [init3DBackground], run a frame callback, deliver a resize event. *)
Inductive Event : Type :=
| EInit (h : Host)
| EFrame (h : Host)
| EResize (h : Host).

Definition handle (st : State) (ev : Event) : State :=
  match ev with
  | EInit h => final (init3DBackground h st)
  | EFrame h => final (animate h st)
  | EResize h => final (onWindowResize h st)
  end.

Definition run (evs : list Event) (st : State) : State :=
  fold_left handle evs st.

Definition ready (st : State) : Prop :=
  assigned (camera st) = true /\ assigned (renderer st) = true.

(** A component is a number between [lo] and [hi]. *)
Definition component_in (lo hi : float) (v : value) : bool :=
  match v with
  | VNum x => (lo <=? x) && (x <=? hi)
  | VUndefined => false
  end.

(** A state with camera and renderer as a completed initialisation on an
    800 by 600 viewport leaves them, and nothing else. *)
Definition state_ready : State :=
  mkState None (Some (mkCamera 75 (800 / 600) 0.1 1000 15 (800 / 600)))
          (Some (mkRenderer true (Some (800, 600)) 2 0x0A192F%N 1 1))
          None (Some canvas0) [] true 1 0 [].

(** A host whose renderer cannot be created (no WebGL context). *)
Definition host_no_webgl : Host :=
  mkHost 800 600 1 (fun _ => 0.5)
         (fun _ c => match c with NewWebGLRenderer => true | _ => false end).

(** A 1024 by 768 viewport at pixel ratio 1.5. *)
Definition host1 : Host :=
  mkHost 1024 768 1.5 (fun _ => 0.25) (fun _ _ => false).

(** The sign-in call [initializeFirebase] makes: with the injected token
    when there is one, anonymously otherwise. *)
Definition sign_in_call (sv : Services) : FirebaseCall :=
  if truthy (initial_auth_token sv) then SignInWithCustomToken else SignInAnonymously.

(** The first call of [initializeFirebase] that fails, if any. *)
Definition bootstrap_failure (sv : Services) : option string :=
  if firebase_fails sv InitializeApp then Some "initializeApp"
  else if firebase_fails sv GetFirestore then Some "getFirestore"
  else if firebase_fails sv GetAuth then Some "getAuth"
  else if firebase_fails sv (sign_in_call sv) then
    Some (if truthy (initial_auth_token sv)
          then "signInWithCustomToken" else "signInAnonymously")
  else None.

(** The user id a completed [initializeFirebase] assigns. *)
Definition bootstrap_userId (sv : Services) : string :=
  match currentUser_uid sv with
  | Some u => if String.eqb u "" then "anon-" ++ randomUUID sv else u
  | None => "anon-" ++ randomUUID sv
  end.

(** The page with only the status line changed to the refusal. *)
Definition refused (p : Page) : Page :=
  set_formMessage
    (mkMessage "mt-4 text-center text-red-400 text-sm font-medium"
               "Error: Connection not established. Please refresh.") p.

(** Services whose document store rejects the write. *)
Definition services_addDoc_fails : Services :=
  mkServices NotInjected (Some "portfolio") None
             (fun c => match c with AddDoc => true | _ => false end)
             (Some "u1") "0000".

(** Services whose sign-in is rejected, and that report no user. *)
Definition services_offline : Services :=
  mkServices NotInjected None None
             (fun c => match c with SignInAnonymously => true | _ => false end)
             None "0000".

(** Services with no signed-in user id to report. *)
Definition services_anonymous : Services :=
  mkServices NotInjected None None (fun _ => false) (Some "") "1234".

(** [page0] after a completed bootstrap. *)
Definition page_connected : Page :=
  set_userId (Some "u1") (set_db (Some tt) page0).

(** A host whose library throws at [renderer.render] and nowhere else. *)
Definition host_render_fails : Host :=
  mkHost 800 600 1 (fun _ => 0.5)
         (fun _ c => match c with Render => true | _ => false end).

(** The renderer's pixel ratio, if there is a renderer, is not above 2. *)
Definition capped (st : State) : Prop :=
  match renderer st with
  | Some r => (2 <? pixelRatio r) = false
  | None => True
  end.

(** What a frame leaves behind when the renderer is unset. *)
Definition frame_without_renderer (st : State) : State :=
  set_group (option_map rotate (group st))
            (set_frame_requests (S (frame_requests st)) st).

(** Two states that differ at most in the log of library calls. *)
Definition same_but_calls (a b : State) : Prop :=
  scene a = scene b /\ camera a = camera b /\ renderer a = renderer b /\
  group a = group b /\ canvas a = canvas b /\ console a = console b /\
  resize_listener a = resize_listener b /\
  frame_requests a = frame_requests b /\ random_calls a = random_calls b.

(** What a resize on host [h] makes of a camera and of a renderer. *)
Definition resized_camera (h : Host) (c : Camera) : Camera :=
  mkCamera (fov c) (innerWidth h / innerHeight h) (near c) (far c)
           (position_z c) (innerWidth h / innerHeight h).

Definition resized_renderer (h : Host) (r : Renderer) : Renderer :=
  mkRenderer (alpha r) (Some (innerWidth h, innerHeight h))
             (Math_min (devicePixelRatio h) 2)
             (clearColor r) (clearAlpha r) (frames r).

(** A host with a very dense display. *)
Definition host_dense : Host :=
  mkHost 1920 1080 4 (fun _ => 0.75) (fun _ _ => false).

(** An anchor after the wiring, [menu] telling whether the menu button
    and the mobile menu both exist: a menu link gets the hiding listener,
    and after it an internal link gets the scrolling one. *)
Definition wired_anchor (menu : bool) (a : Anchor) : Anchor :=
  mkAnchor (href a) (in_mobile_menu a)
           (click a
            ++ (if menu && in_mobile_menu a then [HideMenu] else [])
            ++ (if internal a then [SmoothScroll] else [])).

(** The form after the wiring, [message] telling whether the status
    element exists. *)
Definition wired_form (message : bool) (f : Form) : Form :=
  mkForm (has_submit_button f)
         (submit f ++ (if message && has_submit_button f then [SubmitForm] else [])).

(** The element a click on a link to [hr] scrolls to, if any. *)
Definition scroll_target (b : Browser) (hr : string) : list string :=
  if (1 <? String.length hr)%nat then
    match querySelector b hr with
    | Element id => [id]
    | InvalidSelector | NoElement => []
    end
  else [].

Definition is_HideMenu (l : Listener) : bool :=
  match l with HideMenu => true | _ => false end.

(** [document0] after the callback ran. *)
Definition document_wired : Document :=
  final (on_DOMContentLoaded browser0 document0).


(* ================================================================== *)
(** ** Weakest preconditions over the monad *)

Section WpRules.

Context {S : Type}.

Lemma wp_ret {A} (a : A) (Q : A -> S -> Prop) E st :
  Q a st -> wp (ret a) Q E st.
Proof. exact (fun H => H). Qed.

Lemma wp_bind {A B} (m : M S A) (f : A -> M S B) Q E st :
  wp m (fun a => wp (f a) Q E) E st -> wp (bind m f) Q E st.
Proof. unfold wp, bind. destruct (m st); exact (fun H => H). Qed.

Lemma wp_gets {A} (f : S -> A) (Q : A -> S -> Prop) E st :
  Q (f st) st -> wp (gets f) Q E st.
Proof. exact (fun H => H). Qed.

Lemma wp_modify (f : S -> S) (Q : unit -> S -> Prop) E st :
  Q tt (f st) -> wp (modify f) Q E st.
Proof. exact (fun H => H). Qed.

Lemma wp_try_catch {A} (body : M S A) handler (Q : A -> S -> Prop) E st :
  wp body Q (fun e => wp (handler e) Q E) st -> wp (try_catch body handler) Q E st.
Proof. unfold wp, try_catch. destruct (body st); exact (fun H => H). Qed.

Lemma wp_mono {A} (m : M S A) (Q Q' : A -> S -> Prop) (E E' : error -> S -> Prop) st :
  (forall a s, Q a s -> Q' a s) -> (forall e s, E e s -> E' e s) ->
  wp m Q E st -> wp m Q' E' st.
Proof. unfold wp. intros HQ HE. destruct (m st); auto. Qed.

Lemma wp_ok {A} (m : M S A) (Q : A -> S -> Prop) E st a st' :
  wp m Q E st -> m st = Ok a st' -> Q a st'.
Proof. unfold wp. intros H Hm. rewrite Hm in H. exact H. Qed.

Lemma wp_thrown {A} (m : M S A) (Q : A -> S -> Prop) E st e st' :
  wp m Q E st -> m st = Throw e st' -> E e st'.
Proof. unfold wp. intros H Hm. rewrite Hm in H. exact H. Qed.

Lemma wp_final {A} (m : M S A) (I : S -> Prop) st :
  wp m (fun _ => I) (fun _ => I) st -> I (final (m st)).
Proof. unfold wp, final. destruct (m st); exact (fun H => H). Qed.

(** With no exception possible, the invocation returns. *)
Lemma wp_returns {A} (m : M S A) (Q : A -> S -> Prop) st :
  wp m Q (fun _ _ => False) st -> exists a st', m st = Ok a st' /\ Q a st'.
Proof.
  unfold wp. destruct (m st) as [a st' | e st']; intros H.
  - exists a, st'. split; [reflexivity | exact H].
  - destruct H.
Qed.

End WpRules.

Section BackgroundRules.

Variable h : Host.

Lemma wp_lib c (Q : unit -> State -> Prop) E st :
  (lib_throws h (calls st) c = true ->
   E (LibraryError c) (set_calls (calls st ++ [c]) st)) ->
  (lib_throws h (calls st) c = false ->
   Q tt (set_calls (calls st ++ [c]) st)) ->
  wp (lib h c) Q E st.
Proof.
  unfold wp, lib. intros HE HQ.
  destruct (lib_throws h (calls st) c); auto.
Qed.

Lemma wp_deref {A} name (f : State -> option A) (Q : A -> State -> Prop) E st :
  (forall a, f st = Some a -> Q a st) ->
  (f st = None -> E (TypeError (name ++ " is undefined")) st) ->
  wp (deref name f) Q E st.
Proof.
  unfold wp, deref. intros HQ HE.
  destruct (f st); auto.
Qed.

Lemma wp_deref_some {A} name (f : State -> option A) (Q : A -> State -> Prop) E st a :
  f st = Some a -> Q a st -> wp (deref name f) Q E st.
Proof. unfold wp, deref. intros ->. exact (fun H => H). Qed.

Lemma wp_Math_random (Q : float -> State -> Prop) E st :
  Q (random h (random_calls st)) (set_random_calls (S (random_calls st)) st) ->
  wp (Math_random h) Q E st.
Proof. exact (fun H => H). Qed.

Lemma wp_console_error msg e (Q : unit -> State -> Prop) E st :
  Q tt (set_console (console st ++ [Log msg e]) st) ->
  wp (console_error msg e) Q E st.
Proof. exact (fun H => H). Qed.

Lemma wp_requestAnimationFrame (Q : unit -> State -> Prop) E st :
  Q tt (set_frame_requests (S (frame_requests st)) st) ->
  wp requestAnimationFrame Q E st.
Proof. exact (fun H => H). Qed.

End BackgroundRules.

(** Reduce the projections of an updated state. *)
Ltac state_simpl :=
  cbn [set_scene set_camera set_renderer set_group set_canvas set_console
       set_resize_listener set_frame_requests set_random_calls set_calls
       scene camera renderer group canvas console resize_listener
       frame_requests random_calls calls
       new_Group new_PerspectiveCamera new_WebGLRenderer group_add
       rotation_x rotation_y rotation_z children objects
       fov aspect near far position_z projection_aspect
       alpha size pixelRatio clearColor clearAlpha frames app] in *.

(** Unfold the updates of a state down to its constructor. *)
Ltac state_unfold :=
  cbv [set_scene set_camera set_renderer set_group set_canvas set_console
       set_resize_listener set_frame_requests set_random_calls set_calls
       scene camera renderer group canvas console resize_listener
       frame_requests random_calls calls].

(** One step of symbolic execution of a straight-line block. *)
Ltac wp_step :=
  lazymatch goal with
  | |- wp (bind _ _) _ _ _ => apply wp_bind
  | |- wp (ret _) _ _ _ => apply wp_ret
  | |- wp (gets _) _ _ _ => apply wp_gets
  | |- wp (modify _) _ _ _ => apply wp_modify
  | |- wp (lib _ _) _ _ _ => apply wp_lib; intros ?
  | |- wp (Math_random _) _ _ _ => apply wp_Math_random
  | |- wp (console_error _ _) _ _ _ => apply wp_console_error
  | |- wp requestAnimationFrame _ _ _ => apply wp_requestAnimationFrame
  | |- wp (deref _ _) _ _ _ =>
      first [ eapply wp_deref_some; [state_simpl; reflexivity |]
            | apply wp_deref; state_simpl;
              [ let a := fresh "a" in let Ha := fresh "Ha" in intros a Ha
              | let Hn := fresh "Hn" in intros Hn ] ]
  end; state_simpl.

(* ================================================================== *)
(** ** The particle loop *)

Section Particles.

Variable h : Host.

Lemma length_particles_from n : forall k, List.length (particles_from h k n) = n.
Proof.
  induction n as [|n IH]; intros k; simpl; [reflexivity | now rewrite IH].
Qed.

Lemma particles_from_rotation_y n : forall k,
  Forall (fun p => cy (rotation p) = VUndefined) (particles_from h k n).
Proof.
  induction n as [|n IH]; intros k; simpl; constructor; auto.
Qed.

Lemma lib_threw_intro l c : lib_throws h l c = true -> lib_threw h (LibraryError c).
Proof. intros H. exists l, c. split; [reflexivity | exact H]. Qed.

(** Both sides are the starting state with the same three fields changed. *)
Ltac loop_frame :=
  unfold loop_changed, group_add; state_simpl;
  cbn [rotation_x rotation_y rotation_z children].

(** The loop appends one particle per iteration, each built from the next
    six random numbers; if a library call throws on the way, only the
    three fields of [loop_changed] differ from the starting state. *)
Lemma create_particles_spec n : forall i st g,
  group st = Some g ->
  wp (create_particles h n i)
     (fun _ st' => exists l,
        st' = loop_changed st g (calls st ++ l) (6 * n + random_calls st)
                (children g ++ particles_from h (random_calls st) n))
     (fun e st' => lib_threw h e /\ exists l k ch, st' = loop_changed st g l k ch)
     st.
Proof.
  induction n as [|n IH]; intros i st g Hg;
    destruct st as [sc ca re gr cv co rl fr rc cl]; destruct g as [rx ry rz ch];
    state_simpl; subst gr.
  - apply wp_ret. exists []. loop_frame.
    rewrite !app_nil_r. reflexivity.
  - cbn [create_particles].
    set (st := mkState sc ca re (Some (mkGroup rx ry rz ch)) cv co rl fr rc cl).
    set (g := mkGroup rx ry rz ch).
    assert (Hthrown : forall c l k r (s : State),
      lib_throws h l c = true -> s = loop_changed st g k r ch ->
      lib_threw h (LibraryError c) /\ exists l k ch, s = loop_changed st g l k ch).
    { intros c l k r s Hc Hs. split; [eapply lib_threw_intro; eassumption|]. eauto. }
    subst st g.
    wp_step. wp_step.
    { eapply Hthrown; [eassumption|]. loop_frame. reflexivity. }
    do 3 (wp_step; wp_step).
    wp_step. wp_step.
    { eapply Hthrown; [eassumption|]. loop_frame. reflexivity. }
    do 2 (wp_step; wp_step).
    wp_step. wp_step.
    { eapply Hthrown; [eassumption|]. loop_frame. reflexivity. }
    wp_step. wp_step. wp_step. wp_step.
    { eapply Hthrown; [eassumption|]. loop_frame. reflexivity. }
    wp_step. wp_step.
    wp_step. wp_step.
    { eapply Hthrown; [eassumption|]. loop_frame. reflexivity. }
    wp_step. wp_step.
    eapply wp_mono; [| | eapply IH; state_simpl; reflexivity].
    + intros _ s [l Hs]. subst s.
      exists ([NewMesh i; PositionSet i; RotationSet i; ScaleSet i; GroupAdd i] ++ l)%list.
      loop_frame.
      rewrite <- !app_assoc. cbn [app particles_from].
      replace (6 * n + S (S (S (S (S (S rc))))))%nat
        with (6 * S n + rc)%nat by lia.
      reflexivity.
    + intros e s [Hthrew (l & k & ch' & Hs)]. split; [exact Hthrew|].
      subst s. exists l, k, ch'. loop_frame. reflexivity.
Qed.

End Particles.

(* ================================================================== *)
(** ** What a completed initialisation leaves behind *)

Section Initialisation.

Variable h : Host.

(** The exceptional postcondition at a library call that threw. *)
Ltac lib_failed :=
  lazymatch goal with
  | |- lib_threw _ _ /\ _ =>
      split; [eapply lib_threw_intro; eassumption | split; reflexivity]
  end.

(** With the canvas present the [try] block either runs to its end, in
    the state [initialised] describes, or stops at a library call that
    threw, with canvas and console as they were. *)
Lemma init_try_spec st cv :
  canvas st = Some cv ->
  wp (init_try h)
     (fun _ st' => exists l, st' = initialised h st l)
     (fun e st' => lib_threw h e /\ canvas st' = canvas st /\ console st' = console st)
     st.
Proof.
  destruct st as [sc ca re gr cv' co rl fr rc cl]; state_simpl. intros ->.
  unfold init_try.
  repeat (wp_step; try solve [lib_failed]).
  eapply wp_mono; [| | eapply create_particles_spec; state_simpl; reflexivity].
  - intros _ s [l ->]. unfold loop_changed. state_simpl.
    repeat (wp_step; try solve [lib_failed]).
    unfold animate.
    repeat (wp_step; try solve [lib_failed]).
    eexists. unfold initialised. state_unfold.
    rewrite <- !app_assoc. reflexivity.
  - intros e s [Hthrew (l & k & ch & ->)].
    split; [exact Hthrew | split; reflexivity].
Qed.

Lemma quiet_not_threw e : quiet h -> lib_threw h e -> False.
Proof. intros Hq (l & c & _ & Hc). rewrite Hq in Hc. discriminate Hc. Qed.

Lemma init_try_completed st cv st1 :
  canvas st = Some cv -> init_try h st = Ok tt st1 ->
  exists l, st1 = initialised h st l.
Proof.
  intros Hcv Hrun. exact (wp_ok _ _ _ _ _ _ (init_try_spec st cv Hcv) Hrun).
Qed.

Lemma init_try_quiet st cv :
  canvas st = Some cv -> quiet h ->
  exists l, init_try h st = Ok tt (initialised h st l).
Proof.
  intros Hcv Hq.
  destruct (wp_returns (init_try h) (fun _ st' => exists l, st' = initialised h st l) st)
    as ([] & st' & Hrun & l & ->).
  - eapply wp_mono; [| | exact (init_try_spec st cv Hcv)].
    + auto.
    + intros e s [Hthrew _]. exact (quiet_not_threw e Hq Hthrew).
  - exists l. exact Hrun.
Qed.

Lemma init_try_thrown st cv e st1 :
  canvas st = Some cv -> init_try h st = Throw e st1 ->
  lib_threw h e /\ canvas st1 = Some cv /\ console st1 = console st.
Proof.
  intros Hcv Hrun.
  destruct (wp_thrown _ _ _ _ _ _ (init_try_spec st cv Hcv) Hrun) as (H1 & H2 & H3).
  rewrite Hcv in H2. auto.
Qed.


Lemma init3DBackground_completed st st1 :
  init_try h st = Ok tt st1 -> init3DBackground h st = Ok tt st1.
Proof. unfold init3DBackground, try_catch. now intros ->. Qed.

End Initialisation.

(* ================================================================== *)
(** ** One frame, one resize, and the events of a page's life *)

Section Frames.

Variable h : Host.

Ltac lib_threw_now := eapply lib_threw_intro; eassumption.

(** However the frame ends, the group has been rotated on both axes and
    nothing else of it has changed; camera and canvas are untouched. *)
Lemma animate_final st :
  let st' := final (animate h st) in
  group st' = option_map rotate (group st) /\
  camera st' = camera st /\
  assigned (renderer st') = assigned (renderer st) /\
  canvas st' = canvas st /\
  frame_requests st' = S (frame_requests st).
Proof.
  apply (wp_final (animate h)
    (fun st' => group st' = option_map rotate (group st) /\
                camera st' = camera st /\
                assigned (renderer st') = assigned (renderer st) /\
                canvas st' = canvas st /\
                frame_requests st' = S (frame_requests st))).
  destruct st as [sc ca re gr cv co rl fr rc cl]. unfold animate.
  destruct gr as [g|]; destruct re as [r|];
    repeat (wp_step; try solve [repeat split]).
Qed.

(** A frame with the renderer in place and a library that does not throw
    returns normally. *)
Lemma animate_returns st r :
  renderer st = Some r -> quiet h -> exists st', animate h st = Ok tt st'.
Proof.
  intros Hr Hq.
  destruct (wp_returns (animate h) (fun _ _ => True) st) as ([] & st' & Hrun & _);
    [| eauto].
  destruct st as [sc ca re gr cv co rl fr rc cl]. state_simpl. subst re.
  unfold animate.
  destruct gr as [g|];
    repeat (wp_step; try solve [exact I]);
    match goal with H : lib_throws _ _ _ = true |- _ => rewrite Hq in H; discriminate H end.
Qed.

Lemma ticks_group n : forall st,
  group (ticks h n st) =
  option_map (fun g => mkGroup (accumulate n (rotation_x g))
                               (accumulate n (rotation_y g))
                               (rotation_z g) (children g))
             (group st).
Proof.
  induction n as [|n IH]; intros st; cbn [ticks accumulate].
  - destruct (group st) as [[rx ry rz ch]|]; reflexivity.
  - rewrite IH. destruct (animate_final st) as (Hg & _). rewrite Hg.
    destruct (group st) as [[rx ry rz ch]|]; reflexivity.
Qed.

(** With camera and renderer assigned, a resize can only fail inside the
    library; when it returns, camera and renderer hold the new values. *)
Lemma onWindowResize_spec st c r :
  camera st = Some c -> renderer st = Some r ->
  wp (onWindowResize h)
     (fun _ st' =>
        camera st' = Some (mkCamera (fov c) (innerWidth h / innerHeight h)
                                    (near c) (far c) (position_z c)
                                    (innerWidth h / innerHeight h)) /\
        renderer st' = Some (mkRenderer (alpha r)
                                        (Some (innerWidth h, innerHeight h))
                                        (Math_min (devicePixelRatio h) 2)
                                        (clearColor r) (clearAlpha r) (frames r)) /\
        group st' = group st /\ canvas st' = canvas st)
     (fun e _ => lib_threw h e)
     st.
Proof.
  destruct st as [sc ca re gr cv co rl fr rc cl]. state_simpl.
  intros -> ->. unfold onWindowResize.
  repeat (wp_step; try solve [lib_threw_now]).
  repeat split.
Qed.

(** However a resize ends, the group is as it was, and an assigned camera
    or renderer stays assigned. *)
Lemma onWindowResize_final st :
  let st' := final (onWindowResize h st) in
  group st' = group st /\
  assigned (camera st') = assigned (camera st) /\
  assigned (renderer st') = assigned (renderer st).
Proof.
  apply (wp_final (onWindowResize h)
    (fun st' => group st' = group st /\
                assigned (camera st') = assigned (camera st) /\
                assigned (renderer st') = assigned (renderer st))).
  destruct st as [sc ca re gr cv co rl fr rc cl]. unfold onWindowResize.
  destruct ca as [c|]; destruct re as [r|];
    repeat (wp_step; try solve [repeat split]).
Qed.

End Frames.

Section InitialisationFrame.

Variable h : Host.

(** The relation [init_changes] at the state reached so far. *)
Ltac changes_now :=
  unfold init_changes, balanced; state_simpl;
  repeat split; solve [auto | right; reflexivity | left; reflexivity].

(** An exception reaching the [catch] block, given what the block does. *)
Ltac caught Hcatch :=
  lazymatch goal with
  | |- wp (init_catch _) _ _ _ => apply Hcatch; changes_now
  end.

Lemma init3DBackground_final st :
  init_changes st (final (init3DBackground h st)).
Proof.
  apply (wp_final (init3DBackground h) (init_changes st)).
  unfold init3DBackground. apply wp_try_catch.
  destruct st as [sc ca re gr cv co rl fr rc cl].
  assert (Hcatch : forall e s, init_changes (mkState sc ca re gr cv co rl fr rc cl) s ->
            wp (init_catch e) (fun _ => init_changes (mkState sc ca re gr cv co rl fr rc cl))
               (fun _ => init_changes (mkState sc ca re gr cv co rl fr rc cl)) s).
  { intros e s Hs. unfold init_catch.
    destruct s as [sc' ca' re' gr' cv' co' rl' fr' rc' cl'].
    destruct cv'; repeat wp_step; exact Hs. }
  unfold init_try.
  destruct cv as [cv|].
  - repeat (wp_step; try solve [caught Hcatch]).
    eapply wp_mono; [| | eapply create_particles_spec; state_simpl; reflexivity].
    + intros _ s [l ->]. unfold loop_changed. state_simpl.
      repeat (wp_step; try solve [caught Hcatch]).
      unfold animate.
      repeat (wp_step; try solve [caught Hcatch]).
      changes_now.
    + intros e s [_ (l & k & ch & ->)]. apply Hcatch.
      unfold loop_changed. changes_now.
  - repeat wp_step. changes_now.
Qed.

End InitialisationFrame.

Lemma handle_balanced st ev : balanced st -> balanced (handle st ev).
Proof.
  unfold balanced. intros Hb. destruct ev as [h|h|h]; cbn [handle].
  - destruct (init3DBackground_final h st) as ([Hg | Hg] & _).
    + rewrite Hg. exact Hb.
    + exact Hg.
  - destruct (animate_final h st) as (Hg & _). rewrite Hg.
    destruct (group st) as [g|]; cbn [option_map rotate rotation_x rotation_y];
      [now rewrite Hb | exact I].
  - destruct (onWindowResize_final h st) as (Hg & _). rewrite Hg. exact Hb.
Qed.

Lemma run_balanced evs : forall st, balanced st -> balanced (run evs st).
Proof.
  induction evs as [|ev evs IH]; intros st Hb; cbn [run fold_left].
  - exact Hb.
  - apply IH, handle_balanced, Hb.
Qed.

Lemma handle_ready st ev : ready st -> ready (handle st ev).
Proof.
  unfold ready. intros [Hc Hr]. destruct ev as [h|h|h]; cbn [handle].
  - destruct (init3DBackground_final h st) as (_ & Hc' & Hr'). auto.
  - destruct (animate_final h st) as (_ & Hc' & Hr' & _).
    rewrite Hc', Hr'. auto.
  - destruct (onWindowResize_final h st) as (_ & Hc' & Hr').
    rewrite Hc', Hr'. auto.
Qed.

Lemma run_ready evs : forall st, ready st -> ready (run evs st).
Proof.
  induction evs as [|ev evs IH]; intros st Hb; cbn [run fold_left].
  - exact Hb.
  - apply IH, handle_ready, Hb.
Qed.

(* ================================================================== *)
(** ** The background: what the specification says of it *)

Lemma initialised_ready h st l : ready (initialised h st l).
Proof. split; reflexivity. Qed.

Lemma ready_assigned st :
  ready st -> exists c r, camera st = Some c /\ renderer st = Some r.
Proof.
  unfold ready. destruct (camera st) as [c|], (renderer st) as [r|];
    cbn [assigned]; intros [Hc Hr]; try discriminate; eauto.
Qed.

(** C1, as amended.  The [try] block of [init3DBackground] ends with a call
    of [animate], so the state it produces has already been rotated once:
    after it and [n] further frames the group's x and y rotations are both
    the result of adding the step [n + 1] times to zero in double
    precision, its z rotation and its children (the particles, with the
    transforms given at construction) are unchanged. *)
Theorem animate_accumulates_rotation (h h' : Host) (st0 st1 : State)
  (cv : Canvas) (n : nat) :
  canvas st0 = Some cv ->
  init_try h st0 = Ok tt st1 ->
  init3DBackground h st0 = Ok tt st1 /\
  exists g1 gn,
    group st1 = Some g1 /\
    group (ticks h' n st1) = Some gn /\
    rotation_x gn = accumulate (S n) 0 /\
    rotation_y gn = accumulate (S n) 0 /\
    rotation_z gn = rotation_z g1 /\
    children gn = children g1 /\
    children g1 = particles_from h (random_calls st0) particleCount.
Proof.
  intros Hcv Hrun. split; [apply init3DBackground_completed; exact Hrun|].
  destruct (init_try_completed h st0 cv st1 Hcv Hrun) as [l ->].
  eexists _, _. split; [reflexivity|].
  rewrite ticks_group. unfold initialised. cbn [group option_map].
  split; [reflexivity|].
  cbn [rotation_x rotation_y rotation_z children accumulate].
  repeat split.
Qed.

Lemma animate_accumulates_rotation_witness :
  init3DBackground host0 (initial_state (Some canvas0))
  = Ok tt (final (init_try host0 (initial_state (Some canvas0)))) /\
  exists g1 gn,
    group (final (init_try host0 (initial_state (Some canvas0)))) = Some g1 /\
    group (ticks host1 3 (final (init_try host0 (initial_state (Some canvas0)))))
    = Some gn /\
    rotation_x gn = accumulate 4 0 /\
    rotation_y gn = accumulate 4 0 /\
    rotation_z gn = rotation_z g1 /\
    children gn = children g1 /\
    children g1 = particles_from host0 0 particleCount.
Proof.
  apply (animate_accumulates_rotation host0 host1 (initial_state (Some canvas0))
           _ canvas0 3).
  - reflexivity.
  - vm_compute. reflexivity.
Defined.

(** C1, as stated, fails: in the state [init3DBackground] produces the
    rotation is already one step, not zero, on both axes; and ten
    additions of the step do not give ten times the step. *)
Lemma init_state_already_rotated :
  exists st1 g,
    init3DBackground host0 (initial_state (Some canvas0)) = Ok tt st1 /\
    group (ticks host0 0 st1) = Some g /\
    rotation_x g <> 0 * rotation_step /\
    rotation_y g <> 0 * rotation_step /\
    accumulate 10 0 <> 10 * rotation_step.
Proof.
  eexists. eexists.
  split; [vm_compute; reflexivity|].
  split; [vm_compute; reflexivity|].
  repeat split; intros H;
    match type of H with
    | ?a = _ => apply (f_equal (fun x => PrimFloat.eqb x a)) in H
    end;
    vm_compute in H; discriminate H.
Qed.

(** C2.  With camera and renderer in place and a library that does not
    throw, a resize on a [W] by [H] viewport, both positive, returns; the
    camera's aspect (and the projection computed from it) is then [W / H]
    and the renderer's pixel ratio is [Math.min(devicePixelRatio, 2)], its
    size [W] by [H]. *)
Theorem onWindowResize_aspect_and_pixel_ratio (h : Host) (st : State)
  (c : Camera) (r : Renderer) :
  camera st = Some c ->
  renderer st = Some r ->
  (0 <? innerWidth h) = true ->
  (0 <? innerHeight h) = true ->
  quiet h ->
  exists st' c' r',
    onWindowResize h st = Ok tt st' /\
    camera st' = Some c' /\
    aspect c' = innerWidth h / innerHeight h /\
    projection_aspect c' = innerWidth h / innerHeight h /\
    renderer st' = Some r' /\
    pixelRatio r' = Math_min (devicePixelRatio h) 2 /\
    size r' = Some (innerWidth h, innerHeight h).
Proof.
  intros Hc Hr _ _ Hq.
  destruct (wp_returns (onWindowResize h)
              (fun _ st' =>
                 camera st' = Some (mkCamera (fov c) (innerWidth h / innerHeight h)
                                      (near c) (far c) (position_z c)
                                      (innerWidth h / innerHeight h)) /\
                 renderer st' = Some (mkRenderer (alpha r)
                                        (Some (innerWidth h, innerHeight h))
                                        (Math_min (devicePixelRatio h) 2)
                                        (clearColor r) (clearAlpha r) (frames r)))
              st)
    as ([] & st' & Hrun & Hc' & Hr').
  - eapply wp_mono; [| | exact (onWindowResize_spec h st c r Hc Hr)].
    + intros _ s (H1 & H2 & _). split; assumption.
    + intros e s Hthrew. exact (quiet_not_threw h e Hq Hthrew).
  - eexists st', _, _. split; [exact Hrun|].
    split; [exact Hc'|]. split; [reflexivity|]. split; [reflexivity|].
    split; [exact Hr'|]. split; reflexivity.
Qed.

Lemma onWindowResize_aspect_and_pixel_ratio_witness :
  exists st' c' r',
    onWindowResize host1 state_ready = Ok tt st' /\
    camera st' = Some c' /\
    aspect c' = 1024 / 768 /\
    projection_aspect c' = 1024 / 768 /\
    renderer st' = Some r' /\
    pixelRatio r' = Math_min 1.5 2 /\
    size r' = Some (1024, 768).
Proof.
  refine (onWindowResize_aspect_and_pixel_ratio host1 state_ready _ _
            eq_refl eq_refl eq_refl eq_refl _).
  intros l c. reflexivity.
Defined.

(** C3 fails on the code: the second argument of [rotation.set] is
    [Math.react], which is [undefined], so whenever the [try] block
    completes, each of the 500 particles has a y rotation that is not a
    number in [0, pi]. *)
Theorem particles_rotation_y_undefined (h : Host) (st0 st1 : State) (cv : Canvas) :
  canvas st0 = Some cv ->
  init_try h st0 = Ok tt st1 ->
  exists g,
    group st1 = Some g /\
    List.length (children g) = 500%nat /\
    Forall (fun p => cy (rotation p) = VUndefined /\
                     component_in 0 Math_PI (cy (rotation p)) = false)
           (children g).
Proof.
  intros Hcv Hrun.
  destruct (init_try_completed h st0 cv st1 Hcv Hrun) as [l ->].
  eexists. split; [reflexivity|]. cbn [children].
  split; [apply length_particles_from|].
  eapply Forall_impl; [| apply particles_from_rotation_y].
  intros p Hp. rewrite Hp. split; reflexivity.
Qed.

Lemma particles_rotation_y_undefined_witness :
  exists g,
    group (final (init_try host0 (initial_state (Some canvas0)))) = Some g /\
    List.length (children g) = 500%nat /\
    Forall (fun p => cy (rotation p) = VUndefined /\
                     component_in 0 Math_PI (cy (rotation p)) = false)
           (children g).
Proof.
  apply (particles_rotation_y_undefined host0 (initial_state (Some canvas0))
           _ canvas0).
  - reflexivity.
  - vm_compute. reflexivity.
Defined.

(** C4.  Without the canvas element [init3DBackground] returns normally,
    having logged the error and nothing else: no animation frame is
    requested, no library call is made, [scene], [camera], [renderer] and
    [group] are what they were (unset, in the initial state), and there is
    still no canvas, so none was hidden. *)
Theorem init3DBackground_without_canvas (h : Host) (st : State) :
  canvas st = None ->
  exists st',
    init3DBackground h st = Ok tt st' /\
    console st' = (console st ++ [Log "3D Canvas not found." None])%list /\
    frame_requests st' = frame_requests st /\
    resize_listener st' = resize_listener st /\
    calls st' = calls st /\
    scene st' = scene st /\ camera st' = camera st /\
    renderer st' = renderer st /\ group st' = group st /\
    canvas st' = None.
Proof.
  intros Hcv. eexists.
  split.
  - unfold init3DBackground, try_catch, init_try, bind, gets. rewrite Hcv.
    reflexivity.
  - state_simpl. rewrite Hcv. repeat split.
Qed.

Lemma init3DBackground_without_canvas_witness :
  exists st',
    init3DBackground host0 (initial_state None) = Ok tt st' /\
    console st' = [Log "3D Canvas not found." None] /\
    frame_requests st' = 0%nat /\
    resize_listener st' = false /\
    calls st' = [] /\
    scene st' = None /\ camera st' = None /\
    renderer st' = None /\ group st' = None /\
    canvas st' = None.
Proof.
  exact (init3DBackground_without_canvas host0 (initial_state None) eq_refl).
Defined.

(** C5.  Whatever throws inside the [try] block, with the canvas present:
    [init3DBackground] returns normally; the canvas is hidden; the error
    is logged; and nothing is attempted again, the log of library calls
    and the variables being as they were when the exception was thrown. *)
Theorem init3DBackground_catches_failure (h : Host) (st st1 : State)
  (cv : Canvas) (e : error) :
  canvas st = Some cv ->
  init_try h st = Throw e st1 ->
  exists st',
    init3DBackground h st = Ok tt st' /\
    canvas st' = Some (mkCanvas "none") /\
    console st' =
      (console st ++ [Log "Error initializing 3D background:" (Some e)])%list /\
    calls st' = calls st1 /\
    scene st' = scene st1 /\ camera st' = camera st1 /\
    renderer st' = renderer st1 /\ group st' = group st1 /\
    frame_requests st' = frame_requests st1.
Proof.
  intros Hcv Hrun.
  destruct (init_try_thrown h st cv e st1 Hcv Hrun) as (_ & Hcv1 & Hco1).
  eexists. split.
  - unfold init3DBackground, try_catch. rewrite Hrun.
    unfold init_catch, bind, console_error, modify, gets. state_simpl.
    rewrite Hcv1. reflexivity.
  - state_simpl. rewrite Hco1. repeat split.
Qed.

Lemma init3DBackground_catches_failure_witness :
  exists st',
    init3DBackground host_no_webgl (initial_state (Some canvas0)) = Ok tt st' /\
    canvas st' = Some (mkCanvas "none") /\
    console st' =
      [Log "Error initializing 3D background:"
           (Some (LibraryError NewWebGLRenderer))] /\
    calls st' = [NewScene; NewPerspectiveCamera; NewWebGLRenderer] /\
    scene st' = Some (mkScene []) /\
    camera st' = Some (mkCamera 75 (800 / 600) 0.1 1000 15 (800 / 600)) /\
    renderer st' = None /\ group st' = None /\
    frame_requests st' = 0%nat.
Proof.
  exact (init3DBackground_catches_failure host_no_webgl
           (initial_state (Some canvas0))
           (mkState (Some (mkScene []))
                    (Some (mkCamera 75 (800 / 600) 0.1 1000 15 (800 / 600)))
                    None None (Some canvas0) [] false 0 0
                    [NewScene; NewPerspectiveCamera; NewWebGLRenderer])
           canvas0 (LibraryError NewWebGLRenderer) eq_refl eq_refl).
Defined.

(** C6.  With the canvas present, an 800 by 600 viewport and a library
    that does not throw, [init3DBackground] completes: the camera's aspect
    is 800/600 (the double 1.3333333333333333), the group holds 500
    particles, and the animation loop runs: the first frame has been
    rendered and the next is requested.  No error is logged and the
    canvas is not hidden. *)
Theorem init3DBackground_800x600 (h : Host) (st : State) (cv : Canvas) :
  canvas st = Some cv ->
  innerWidth h = 800 ->
  innerHeight h = 600 ->
  quiet h ->
  exists st' c g r,
    init3DBackground h st = Ok tt st' /\
    camera st' = Some c /\ aspect c = 800 / 600 /\
    800 / 600 = 1.3333333333333333 /\
    group st' = Some g /\ List.length (children g) = 500%nat /\
    frame_requests st' = S (frame_requests st) /\
    renderer st' = Some r /\ frames r = 1%nat /\
    resize_listener st' = true /\
    console st' = console st /\ canvas st' = Some cv.
Proof.
  intros Hcv HW HH Hq.
  destruct (init_try_quiet h st cv Hcv Hq) as [l Hrun].
  eexists (initialised h st l), _, _, _.
  split; [apply init3DBackground_completed; exact Hrun|].
  unfold initialised. state_simpl. rewrite HW, HH, Hcv.
  split; [reflexivity|]. split; [reflexivity|]. split; [reflexivity|].
  split; [reflexivity|]. split; [apply length_particles_from|].
  repeat split.
Qed.

Lemma init3DBackground_800x600_witness :
  exists st' c g r,
    init3DBackground host0 (initial_state (Some canvas0)) = Ok tt st' /\
    camera st' = Some c /\ aspect c = 800 / 600 /\
    800 / 600 = 1.3333333333333333 /\
    group st' = Some g /\ List.length (children g) = 500%nat /\
    frame_requests st' = 1%nat /\
    renderer st' = Some r /\ frames r = 1%nat /\
    resize_listener st' = true /\
    console st' = [] /\ canvas st' = Some canvas0.
Proof.
  refine (init3DBackground_800x600 host0 (initial_state (Some canvas0)) canvas0
            eq_refl eq_refl eq_refl _).
  intros l c. reflexivity.
Defined.

(** C7.  [onWindowResize] has no guard: while [camera] is unset, as in
    the state before [init3DBackground] ran, it throws the TypeError of
    reading a property of [undefined] and changes nothing.  Once the
    [try] block of [init3DBackground] has completed, whatever frames,
    resizes and further initialisations follow, it never throws such an
    error; it can only fail inside the library, and returns when the
    library does not throw. *)
Theorem onWindowResize_unguarded :
  (forall h cv,
     onWindowResize h (initial_state cv)
     = Throw (TypeError "camera is undefined") (initial_state cv)) /\
  (forall h st,
     camera st = None ->
     onWindowResize h st = Throw (TypeError "camera is undefined") st) /\
  (forall h0 st0 cv st1 evs h,
     canvas st0 = Some cv ->
     init_try h0 st0 = Ok tt st1 ->
     (forall msg st', onWindowResize h (run evs st1) <> Throw (TypeError msg) st') /\
     (quiet h -> exists st', onWindowResize h (run evs st1) = Ok tt st')).
Proof.
  assert (Hnone : forall h st, camera st = None ->
            onWindowResize h st = Throw (TypeError "camera is undefined") st).
  { intros h st Hc. unfold onWindowResize, bind, deref. rewrite Hc. reflexivity. }
  split; [intros h cv; apply Hnone; reflexivity|].
  split; [exact Hnone|].
  intros h0 st0 cv st1 evs h Hcv Hrun.
  destruct (init_try_completed h0 st0 cv st1 Hcv Hrun) as [l ->].
  destruct (ready_assigned _ (run_ready evs _ (initialised_ready h0 st0 l)))
    as (c & r & Hc & Hr).
  pose proof (onWindowResize_spec h _ c r Hc Hr) as Hspec.
  split.
  - intros msg st' Hthrow.
    destruct (wp_thrown _ _ _ _ _ _ Hspec Hthrow) as (l' & c' & Heq & _).
    discriminate Heq.
  - intros Hq.
    destruct (wp_returns (onWindowResize h) (fun _ _ => True)
                (run evs (initialised h0 st0 l))) as ([] & st' & Hok & _);
      [| eauto].
    eapply wp_mono; [| | exact Hspec].
    + auto.
    + intros e s Hthrew. exact (quiet_not_threw h e Hq Hthrew).
Qed.

Lemma onWindowResize_unguarded_witness :
  (forall msg st',
     onWindowResize host1
       (run [EFrame host0; EResize host0]
            (final (init_try host0 (initial_state (Some canvas0)))))
     <> Throw (TypeError msg) st') /\
  (exists st',
     onWindowResize host1
       (run [EFrame host0; EResize host0]
            (final (init_try host0 (initial_state (Some canvas0)))))
     = Ok tt st').
Proof.
  destruct (proj2 (proj2 onWindowResize_unguarded) host0
              (initial_state (Some canvas0)) canvas0
              (final (init_try host0 (initial_state (Some canvas0))))
              [EFrame host0; EResize host0] host1 eq_refl)
    as [Hno Hok].
  - vm_compute. reflexivity.
  - split; [exact Hno|]. apply Hok. intros l c. reflexivity.
Defined.

(** C9.  From the state before the script ran, after any sequence of
    initialisations, frames and resizes, however each of them ended, a
    group that exists has equal x and y rotations. *)
Theorem rotation_x_equals_rotation_y (cv : option Canvas) (evs : list Event)
  (g : Group) :
  group (run evs (initial_state cv)) = Some g ->
  rotation_x g = rotation_y g.
Proof.
  intros Hg.
  pose proof (run_balanced evs (initial_state cv) I) as Hb.
  unfold balanced in Hb. rewrite Hg in Hb. exact Hb.
Qed.

Lemma rotation_x_equals_rotation_y_witness :
  exists g,
    group (run [EInit host0; EFrame host1; EResize host1; EFrame host0]
               (initial_state (Some canvas0))) = Some g /\
    rotation_x g = rotation_y g /\
    rotation_x g = accumulate 3 0.
Proof.
  eexists. split; [vm_compute; reflexivity|].
  split.
  - eapply (rotation_x_equals_rotation_y (Some canvas0)
              [EInit host0; EFrame host1; EResize host1; EFrame host0]).
    vm_compute. reflexivity.
  - vm_compute. reflexivity.
Defined.

(* ================================================================== *)
(** ** The page script: what the specification says of it *)

(** Run on its own, [initializeFirebase] would connect the page. *)
Example initializeFirebase_connects :
  exists p',
    initializeFirebase services0 page0 = Ok tt p' /\
    db p' = Some tt /\ userId p' = Some "u1" /\
    initializeFirebase_calls p' = 1%nat.
Proof. eexists. split; [vm_compute; reflexivity|]. repeat split. Qed.




(** C10.  A submission that passes the connection check, on a page that
    has the three inputs: whether [collection] and [addDoc] succeed or
    throw, the listener returns normally, with the button enabled and its
    label the one it had before. *)
Theorem on_submit_restores_button (sv : Services) (p : Page) (d : unit)
  (n e m : string) :
  db p = Some d ->
  truthy (userId p) = true ->
  name_input p = Some n ->
  email_input p = Some e ->
  message_input p = Some m ->
  exists p',
    on_submit sv p = Ok tt p' /\
    disabled (submitButton p') = false /\
    innerHTML (submitButton p') = innerHTML (submitButton p).
Proof.
  destruct p as [bg0 db0 au0 uid0 li0 ic0 ud0 sb0 fm0 ni0 ei0 mi0 sto0 pc0].
  cbn [db userId name_input email_input message_input submitButton].
  intros -> Hu -> -> ->.
  unfold on_submit, bind, gets, modify, input_value, try_finally, try_catch,
    firebase, page_console_error, formMessage_className, formMessage_textContent,
    submitButton_disabled, submitButton_innerHTML, contactForm_reset.
  cbn [db userId name_input email_input message_input submitButton assigned negb].
  rewrite Hu. cbn [negb orb].
  destruct (firebase_fails sv CollectionRef);
    [| destruct (firebase_fails sv AddDoc)];
    eexists; (split; [reflexivity|]); split; reflexivity.
Qed.

Lemma on_submit_restores_button_witness :
  exists p',
    on_submit services0 (set_userId (Some "u1") (set_db (Some tt) page0))
    = Ok tt p' /\
    disabled (submitButton p') = false /\
    innerHTML (submitButton p') = "Send Message".
Proof.
  exact (on_submit_restores_button services0
           (set_userId (Some "u1") (set_db (Some tt) page0))
           tt "Ada" "ada@example.org" "Hello"
           eq_refl eq_refl eq_refl eq_refl eq_refl).
Defined.

(* ================================================================== *)
(** ** More of the page script *)

Ltac page_unfold :=
  unfold on_submit, initializeFirebase, bind, gets, modify, ret, throw,
    input_value, try_finally, try_catch, firebase, page_console_error,
    show_user_id, formMessage_className, formMessage_textContent,
    submitButton_disabled, submitButton_innerHTML, contactForm_reset.

Ltac page_fields :=
  cbn [background db auth userId domContentLoaded_listeners
       initializeFirebase_calls user_id_display submitButton formMessage
       name_input email_input message_input store page_console
       set_background set_db set_auth set_userId
       set_domContentLoaded_listeners set_initializeFirebase_calls
       set_user_id_display set_submitButton set_formMessage set_inputs
       set_store set_page_console
       disabled innerHTML className textContent
       assigned negb orb andb option_map] in *.

Lemma bootstrap_userId_truthy sv : truthy (Some (bootstrap_userId sv)) = true.
Proof.
  unfold bootstrap_userId, truthy.
  destruct (currentUser_uid sv) as [u|]; [|reflexivity].
  destruct (String.eqb u "") eqn:Hu; [reflexivity|]. now rewrite Hu.
Qed.

(** X1.  When no Firebase call fails, [initializeFirebase] returns with [db]
    and [auth] assigned and a user id that passes the form's connection
    check, the reported uid or, failing that, the anon- fallback; the
    footer shows it if the element exists; nothing is logged and the form
    is untouched. *)
Theorem initializeFirebase_connects_page (sv : Services) (p : Page) :
  bootstrap_failure sv = None ->
  exists p',
    initializeFirebase sv p = Ok tt p' /\
    db p' = Some tt /\ auth p' = Some tt /\
    userId p' = Some (bootstrap_userId sv) /\
    truthy (userId p') = true /\
    user_id_display p' =
      option_map (fun _ => "User ID: " ++ bootstrap_userId sv) (user_id_display p) /\
    page_console p' = page_console p /\
    store p' = store p /\ submitButton p' = submitButton p /\
    initializeFirebase_calls p' = S (initializeFirebase_calls p).
Proof.
  destruct p as [bg0 db0 au0 uid0 li0 ic0 ud0 sb0 fm0 ni0 ei0 mi0 sto0 pc0].
  unfold bootstrap_failure, sign_in_call, bootstrap_userId, truthy.
  page_unfold. unfold truthy. page_fields.
  destruct (firebase_fails sv InitializeApp); [discriminate|].
  destruct (firebase_fails sv GetFirestore); [discriminate|].
  destruct (firebase_fails sv GetAuth); [discriminate|].
  destruct (initial_auth_token sv) as [tok|];
    [destruct (String.eqb tok "")|]; page_fields;
    destruct (firebase_fails sv SignInWithCustomToken);
    destruct (firebase_fails sv SignInAnonymously);
    intros Hup; try discriminate Hup;
    (destruct (currentUser_uid sv) as [u|];
       [destruct (String.eqb u "") eqn:Hu|]);
    page_fields; destruct ud0;
    eexists; (split; [reflexivity|]); page_fields; rewrite ?Hu;
    repeat split.
Qed.

Lemma initializeFirebase_connects_page_witness :
  exists p',
    initializeFirebase services_anonymous page0 = Ok tt p' /\
    db p' = Some tt /\ auth p' = Some tt /\
    userId p' = Some "anon-1234" /\
    truthy (userId p') = true /\
    user_id_display p' = Some "User ID: anon-1234" /\
    page_console p' = [] /\
    store p' = [] /\ submitButton p' = mkButton false "Send Message" /\
    initializeFirebase_calls p' = 1%nat.
Proof.
  exact (initializeFirebase_connects_page services_anonymous page0 eq_refl).
Defined.

(** X2.  When a Firebase call fails, [initializeFirebase] still returns: the
    failure is logged, the footer shows the failure text if the element
    exists, and [userId] is never assigned. *)
Theorem initializeFirebase_failure_is_contained (sv : Services) (p : Page)
  (msg : string) :
  bootstrap_failure sv = Some msg ->
  exists p',
    initializeFirebase sv p = Ok tt p' /\
    userId p' = userId p /\
    page_console p' =
      (page_console p
       ++ [Log "Firebase Initialization Error:" (Some (FirestoreError msg))])%list /\
    user_id_display p' =
      option_map (fun _ => "Firebase failed to load.") (user_id_display p) /\
    store p' = store p /\ submitButton p' = submitButton p /\
    initializeFirebase_calls p' = S (initializeFirebase_calls p).
Proof.
  destruct p as [bg0 db0 au0 uid0 li0 ic0 ud0 sb0 fm0 ni0 ei0 mi0 sto0 pc0].
  unfold bootstrap_failure, sign_in_call, truthy.
  page_unfold. unfold truthy. page_fields.
  destruct (firebase_fails sv InitializeApp);
    [| destruct (firebase_fails sv GetFirestore);
       [| destruct (firebase_fails sv GetAuth);
          [| destruct (initial_auth_token sv) as [tok|];
             [destruct (String.eqb tok "")|]; page_fields;
             destruct (firebase_fails sv SignInWithCustomToken);
             destruct (firebase_fails sv SignInAnonymously) ] ] ];
    intros Hup; try discriminate Hup; injection Hup as <-;
    destruct ud0; eexists; (split; [reflexivity|]); page_fields;
    repeat split.
Qed.

Lemma initializeFirebase_failure_is_contained_witness :
  exists p',
    initializeFirebase services_offline page0 = Ok tt p' /\
    userId p' = None /\
    page_console p' =
      [Log "Firebase Initialization Error:"
           (Some (FirestoreError "signInAnonymously"))] /\
    user_id_display p' = Some "Firebase failed to load." /\
    store p' = [] /\ submitButton p' = mkButton false "Send Message" /\
    initializeFirebase_calls p' = 1%nat.
Proof.
  exact (initializeFirebase_failure_is_contained services_offline page0
           "signInAnonymously" eq_refl).
Defined.

(** X3.  A submission that fails the connection check, because [db] is unset
    or [userId] is unset or empty, only changes the status line to the
    refusal: nothing is stored, the button and the inputs stay as they
    are, and no Firebase call is attempted. *)
Theorem on_submit_refused_without_connection (sv : Services) (p : Page) :
  assigned (db p) && truthy (userId p) = false ->
  on_submit sv p = Ok tt (refused p).
Proof.
  destruct p as [bg0 db0 au0 uid0 li0 ic0 ud0 sb0 fm0 ni0 ei0 mi0 sto0 pc0].
  page_fields. intros Hcheck.
  unfold on_submit, bind, gets. page_fields.
  replace (negb (assigned db0) || negb (truthy uid0)) with true
    by (destruct (assigned db0), (truthy uid0); try reflexivity; discriminate Hcheck).
  reflexivity.
Qed.

Lemma on_submit_refused_without_connection_witness :
  on_submit services0 page0 = Ok tt (refused page0).
Proof.
  exact (on_submit_refused_without_connection services0 page0 eq_refl).
Defined.

(** X4.  A connected submission whose write succeeds appends exactly one
    document, in the collection of this application and this user, with
    the three values typed and status new; the inputs are then reset and
    the status line thanks the sender by name. *)
Theorem on_submit_saves_message (sv : Services) (p : Page) (d : unit)
  (u n e m : string) :
  db p = Some d ->
  userId p = Some u -> String.eqb u "" = false ->
  name_input p = Some n -> email_input p = Some e -> message_input p = Some m ->
  firebase_fails sv CollectionRef = false ->
  firebase_fails sv AddDoc = false ->
  exists p',
    on_submit sv p = Ok tt p' /\
    store p' =
      (store p
       ++ [mkDoc ("/artifacts/" ++ appId sv ++ "/users/" ++ u ++ "/contact_messages")
                 n e m "new"])%list /\
    name_input p' = Some "" /\ email_input p' = Some "" /\
    message_input p' = Some "" /\
    formMessage p' =
      mkMessage "mt-4 text-center text-green-400 text-sm font-medium"
                ("Thanks for your response, " ++ n
                 ++ "! Your message has been saved and forwarded.") /\
    page_console p' = page_console p.
Proof.
  destruct p as [bg0 db0 au0 uid0 li0 ic0 ud0 sb0 fm0 ni0 ei0 mi0 sto0 pc0].
  page_fields. intros -> -> Hu -> -> -> Hc Ha.
  page_unfold. page_fields. unfold truthy. rewrite Hu, Hc, Ha. page_fields.
  eexists. split; [reflexivity|]. page_fields. repeat split.
Qed.

Lemma on_submit_saves_message_witness :
  exists p',
    on_submit services0 page_connected = Ok tt p' /\
    store p' =
      [mkDoc "/artifacts/default-app-id/users/u1/contact_messages"
             "Ada" "ada@example.org" "Hello" "new"] /\
    name_input p' = Some "" /\ email_input p' = Some "" /\
    message_input p' = Some "" /\
    formMessage p' =
      mkMessage "mt-4 text-center text-green-400 text-sm font-medium"
                "Thanks for your response, Ada! Your message has been saved and forwarded." /\
    page_console p' = [].
Proof.
  exact (on_submit_saves_message services0 page_connected tt
           "u1" "Ada" "ada@example.org" "Hello"
           eq_refl eq_refl eq_refl eq_refl eq_refl eq_refl eq_refl eq_refl).
Defined.

(** X5.  A connected submission whose write fails, at [collection] or at
    [addDoc], stores nothing and keeps what was typed: the inputs are not
    reset, the error is logged once and the status line asks to try again. *)
Theorem on_submit_failure_keeps_input (sv : Services) (p : Page) (d : unit)
  (n e m : string) :
  db p = Some d -> truthy (userId p) = true ->
  name_input p = Some n -> email_input p = Some e -> message_input p = Some m ->
  firebase_fails sv CollectionRef || firebase_fails sv AddDoc = true ->
  exists p' err,
    on_submit sv p = Ok tt p' /\
    store p' = store p /\
    name_input p' = Some n /\ email_input p' = Some e /\
    message_input p' = Some m /\
    page_console p' = (page_console p ++ [Log "Form Submission Error:" (Some err)])%list /\
    formMessage p' =
      mkMessage "mt-4 text-center text-red-400 text-sm font-medium"
                "An error occurred. Please try again later.".
Proof.
  destruct p as [bg0 db0 au0 uid0 li0 ic0 ud0 sb0 fm0 ni0 ei0 mi0 sto0 pc0].
  page_fields. intros -> Hu -> -> -> Hfail.
  page_unfold. page_fields. rewrite Hu. page_fields.
  destruct (firebase_fails sv CollectionRef);
    [| destruct (firebase_fails sv AddDoc); [| discriminate Hfail]];
    eexists; eexists; (split; [reflexivity|]); page_fields; repeat split.
Qed.

Lemma on_submit_failure_keeps_input_witness :
  exists p' err,
    on_submit services_addDoc_fails page_connected = Ok tt p' /\
    store p' = [] /\
    name_input p' = Some "Ada" /\ email_input p' = Some "ada@example.org" /\
    message_input p' = Some "Hello" /\
    page_console p' = [Log "Form Submission Error:" (Some err)] /\
    formMessage p' =
      mkMessage "mt-4 text-center text-red-400 text-sm font-medium"
                "An error occurred. Please try again later.".
Proof.
  exact (on_submit_failure_keeps_input services_addDoc_fails page_connected tt
           "Ada" "ada@example.org" "Hello"
           eq_refl eq_refl eq_refl eq_refl eq_refl eq_refl).
Defined.

(** X6.  A connected submission on a page that lacks one of the three inputs
    throws a TypeError while reading the form data, before anything is
    changed: the button is not disabled and nothing is stored. *)
Theorem on_submit_missing_input (sv : Services) (p : Page) (d : unit) :
  db p = Some d -> truthy (userId p) = true ->
  assigned (name_input p) && assigned (email_input p)
    && assigned (message_input p) = false ->
  exists msg, on_submit sv p = Throw (TypeError msg) p.
Proof.
  destruct p as [bg0 db0 au0 uid0 li0 ic0 ud0 sb0 fm0 ni0 ei0 mi0 sto0 pc0].
  page_fields. intros -> Hu Hmissing.
  page_unfold. page_fields. rewrite Hu. page_fields.
  destruct ni0 as [n|]; [destruct ei0 as [e|]; [destruct mi0 as [m|]|]|];
    try discriminate Hmissing; eexists; reflexivity.
Qed.

Lemma on_submit_missing_input_witness :
  exists msg,
    on_submit services0 (set_inputs (Some "Ada") None (Some "Hello") page_connected)
    = Throw (TypeError msg)
            (set_inputs (Some "Ada") None (Some "Hello") page_connected).
Proof.
  exact (on_submit_missing_input services0
           (set_inputs (Some "Ada") None (Some "Hello") page_connected) tt
           eq_refl eq_refl eq_refl).
Defined.

(* ================================================================== *)
(** ** More of the background *)

Lemma wp_conj {S A} (m : M S A) (Q1 Q2 : A -> S -> Prop)
  (E1 E2 : error -> S -> Prop) st :
  wp m Q1 E1 st -> wp m Q2 E2 st ->
  wp m (fun a s => Q1 a s /\ Q2 a s) (fun e s => E1 e s /\ E2 e s) st.
Proof. unfold wp. destruct (m st); auto. Qed.

(** The loop never calls [renderer.render]. *)
Lemma create_particles_not_render h n : forall i st,
  wp (create_particles h n i) (fun _ _ => True)
     (fun e _ => e <> LibraryError Render) st.
Proof.
  induction n as [|n IH]; intros i st.
  - exact I.
  - cbn [create_particles].
    repeat (wp_step; try discriminate).
    apply IH.
Qed.

(** X8.  A frame run while [renderer] is unset still requests the next frame
    and rotates the group, if there is one, and then throws the TypeError
    of reading [renderer.render]; no library call is made. *)
Theorem animate_without_renderer (h : Host) (st : State) :
  renderer st = None ->
  animate h st
  = Throw (TypeError "renderer is undefined") (frame_without_renderer st).
Proof.
  destruct st as [sc ca re gr cv co rl fr rc cl]. state_simpl. intros ->.
  unfold animate, frame_without_renderer, bind, requestAnimationFrame, modify,
    gets, deref, ret.
  destruct gr as [g|]; reflexivity.
Qed.

Lemma animate_without_renderer_witness :
  animate host0 (initial_state (Some canvas0))
  = Throw (TypeError "renderer is undefined")
          (frame_without_renderer (initial_state (Some canvas0))).
Proof.
  exact (animate_without_renderer host0 (initial_state (Some canvas0)) eq_refl).
Defined.

(** How the [try] block can fail, with the canvas present: at a call
    other than the first [renderer.render], with no frame requested and
    the resize listener as it was; or at that render, with the frame
    requested and the listener registered. *)
Lemma init_try_fate h st cv :
  canvas st = Some cv ->
  wp (init_try h)
     (fun _ _ => exists l, lib_throws h l Render = false)
     (fun e st' =>
        (e <> LibraryError Render /\
         frame_requests st' = frame_requests st /\
         resize_listener st' = resize_listener st) \/
        (e = LibraryError Render /\
         (exists l, lib_throws h l Render = true) /\
         frame_requests st' = S (frame_requests st) /\
         resize_listener st' = true))
     st.
Proof.
  destruct st as [sc ca re gr cv' co rl fr rc cl]; state_simpl. intros ->.
  unfold init_try.
  repeat (wp_step; try solve [left; split; [discriminate | split; reflexivity]]).
  eapply wp_mono;
    [| | eapply wp_conj;
         [eapply create_particles_spec; state_simpl; reflexivity
         | eapply create_particles_not_render]].
  - intros _ s [[l ->] _]. unfold loop_changed. state_simpl.
    repeat (wp_step; try solve [left; split; [discriminate | split; reflexivity]]).
    unfold animate.
    repeat (wp_step; try solve [left; split; [discriminate | split; reflexivity]]).
    + right. split; [reflexivity|]. split; [eauto|]. split; reflexivity.
    + eauto.
  - intros e s [[_ (l & k & ch & ->)] Hnot]. left.
    split; [exact Hnot | split; reflexivity].
Qed.

Lemma init3DBackground_caught h st cv e st1 :
  canvas st = Some cv ->
  init_try h st = Throw e st1 ->
  init3DBackground h st
  = Ok tt (set_canvas (Some (mkCanvas "none"))
             (set_console (console st ++ [Log "Error initializing 3D background:" (Some e)])
                          st1)).
Proof.
  intros Hcv Hrun.
  destruct (init_try_thrown h st cv e st1 Hcv Hrun) as (_ & Hcv1 & Hco1).
  unfold init3DBackground, try_catch. rewrite Hrun.
  unfold init_catch, bind, console_error, modify, gets. state_simpl.
  rewrite Hcv1, Hco1. reflexivity.
Qed.

Lemma ticks_frame_requests h n : forall st,
  frame_requests (ticks h n st) = (n + frame_requests st)%nat.
Proof.
  induction n as [|n IH]; intros st; cbn [ticks].
  - reflexivity.
  - rewrite IH. destruct (animate_final h st) as (_ & _ & _ & _ & Hfr).
    rewrite Hfr. lia.
Qed.

(** X9.  When the [try] block fails anywhere but at the first
    [renderer.render], the background is off for good: the canvas is
    hidden, no animation frame has been requested and no resize listener
    has been registered. *)
Theorem init_failure_before_render_starts_nothing (h : Host) (st st1 : State)
  (cv : Canvas) (e : error) :
  canvas st = Some cv ->
  init_try h st = Throw e st1 ->
  e <> LibraryError Render ->
  exists st',
    init3DBackground h st = Ok tt st' /\
    canvas st' = Some (mkCanvas "none") /\
    frame_requests st' = frame_requests st /\
    resize_listener st' = resize_listener st.
Proof.
  intros Hcv Hrun Hnot.
  eexists. split; [exact (init3DBackground_caught h st cv e st1 Hcv Hrun)|].
  state_simpl. split; [reflexivity|].
  destruct (wp_thrown _ _ _ _ _ _ (init_try_fate h st cv Hcv) Hrun)
    as [(_ & Hfr & Hrl) | (He & _)].
  - split; assumption.
  - contradiction.
Qed.

Lemma init_failure_before_render_starts_nothing_witness :
  exists st',
    init3DBackground host_no_webgl (initial_state (Some canvas0)) = Ok tt st' /\
    canvas st' = Some (mkCanvas "none") /\
    frame_requests st' = 0%nat /\
    resize_listener st' = false.
Proof.
  refine (init_failure_before_render_starts_nothing host_no_webgl
            (initial_state (Some canvas0))
            (mkState (Some (mkScene []))
                     (Some (mkCamera 75 (800 / 600) 0.1 1000 15 (800 / 600)))
                     None None (Some canvas0) [] false 0 0
                     [NewScene; NewPerspectiveCamera; NewWebGLRenderer])
            canvas0 (LibraryError NewWebGLRenderer) eq_refl eq_refl _).
  discriminate.
Defined.

(** X10.  When the library throws at [renderer.render] and nowhere else, the
    failure of the first render is caught and the canvas hidden, but the
    loop is already under way: the resize listener is registered, a frame
    is requested, and every later frame requests one more. *)
Theorem init_render_failure_keeps_loop_running (h : Host) (st : State)
  (cv : Canvas) :
  canvas st = Some cv ->
  (forall l c, lib_throws h l c = true <-> c = Render) ->
  exists st',
    init3DBackground h st = Ok tt st' /\
    canvas st' = Some (mkCanvas "none") /\
    console st' =
      (console st
       ++ [Log "Error initializing 3D background:" (Some (LibraryError Render))])%list /\
    resize_listener st' = true /\
    forall n, frame_requests (ticks h n st') = (n + S (frame_requests st))%nat.
Proof.
  intros Hcv Honly.
  pose proof (init_try_fate h st cv Hcv) as Hfate.
  destruct (init_try h st) as [[] st1 | e st1] eqn:Hrun.
  - destruct (wp_ok _ _ _ _ _ _ Hfate Hrun) as [l Hl].
    rewrite (proj2 (Honly l Render) eq_refl) in Hl. discriminate Hl.
  - destruct (init_try_thrown h st cv e st1 Hcv Hrun) as ((l & c & -> & Hc) & _).
    apply Honly in Hc. subst c.
    destruct (wp_thrown _ _ _ _ _ _ Hfate Hrun)
      as [(Hnot & _) | (_ & _ & Hfr & Hrl)]; [now contradiction Hnot|].
    eexists. split; [exact (init3DBackground_caught h st cv _ st1 Hcv Hrun)|].
    state_simpl. repeat split; try assumption.
    intros n. rewrite ticks_frame_requests. state_simpl. rewrite Hfr. reflexivity.
Qed.

Lemma init_render_failure_keeps_loop_running_witness :
  exists st',
    init3DBackground host_render_fails (initial_state (Some canvas0)) = Ok tt st' /\
    canvas st' = Some (mkCanvas "none") /\
    console st' =
      [Log "Error initializing 3D background:" (Some (LibraryError Render))] /\
    resize_listener st' = true /\
    forall n, frame_requests (ticks host_render_fails n st') = (n + 1)%nat.
Proof.
  refine (init_render_failure_keeps_loop_running host_render_fails
            (initial_state (Some canvas0)) canvas0 eq_refl _).
  intros l c. split.
  - destruct c; first [discriminate | reflexivity].
  - intros ->. reflexivity.
Defined.

(** X11.  A resize changes the camera's aspect and projection and the
    renderer's size and pixel ratio, and nothing else of them; so of two
    resizes in a row only the second shows. *)
Theorem onWindowResize_last_wins (h1 h2 : Host) (st : State) (c : Camera)
  (r : Renderer) :
  camera st = Some c -> renderer st = Some r ->
  quiet h1 -> quiet h2 ->
  exists st1 st12,
    onWindowResize h1 st = Ok tt st1 /\
    onWindowResize h2 st1 = Ok tt st12 /\
    camera st1 = Some (resized_camera h1 c) /\
    renderer st1 = Some (resized_renderer h1 r) /\
    camera st12 = Some (resized_camera h2 c) /\
    renderer st12 = Some (resized_renderer h2 r) /\
    group st12 = group st /\ canvas st12 = canvas st.
Proof.
  intros Hc Hr Hq1 Hq2.
  assert (Hone : forall h s c0 r0, camera s = Some c0 -> renderer s = Some r0 ->
            quiet h ->
            exists s', onWindowResize h s = Ok tt s' /\
              camera s' = Some (resized_camera h c0) /\
              renderer s' = Some (resized_renderer h r0) /\
              group s' = group s /\ canvas s' = canvas s).
  { intros h s c0 r0 Hc0 Hr0 Hq.
    destruct (wp_returns (onWindowResize h)
                (fun _ s' => camera s' = Some (resized_camera h c0) /\
                             renderer s' = Some (resized_renderer h r0) /\
                             group s' = group s /\ canvas s' = canvas s) s)
      as ([] & s' & Hrun & Hpost); [| eauto].
    eapply wp_mono; [| | exact (onWindowResize_spec h s c0 r0 Hc0 Hr0)].
    - intros [] s0 Hpost. exact Hpost.
    - intros e s0 Hthrew. exact (quiet_not_threw h e Hq Hthrew). }
  destruct (Hone h1 st c r Hc Hr Hq1) as (st1 & Hrun1 & Hc1 & Hr1 & Hg1 & Hcv1).
  destruct (Hone h2 st1 _ _ Hc1 Hr1 Hq2) as (st12 & Hrun12 & Hc12 & Hr12 & Hg12 & Hcv12).
  exists st1, st12.
  split; [exact Hrun1|]. split; [exact Hrun12|].
  split; [exact Hc1|]. split; [exact Hr1|].
  split; [exact Hc12|]. split; [exact Hr12|].
  split; congruence.
Qed.

Lemma onWindowResize_last_wins_witness :
  exists st1 st12,
    onWindowResize host_dense state_ready = Ok tt st1 /\
    onWindowResize host1 st1 = Ok tt st12 /\
    camera st1 = Some (mkCamera 75 (1920 / 1080) 0.1 1000 15 (1920 / 1080)) /\
    renderer st1 = Some (mkRenderer true (Some (1920, 1080)) 2 0x0A192F%N 1 1) /\
    camera st12 = Some (mkCamera 75 (1024 / 768) 0.1 1000 15 (1024 / 768)) /\
    renderer st12 = Some (mkRenderer true (Some (1024, 768)) 1.5 0x0A192F%N 1 1) /\
    group st12 = None /\ canvas st12 = Some canvas0.
Proof.
  refine (onWindowResize_last_wins host_dense host1 state_ready _ _
            eq_refl eq_refl _ _); intros l c; reflexivity.
Defined.

(** A call into a library that does not throw. *)
Lemma lib_quiet h c st :
  quiet h -> lib h c st = Ok tt (set_calls (calls st ++ [c]) st).
Proof. intros Hq. unfold lib. now rewrite Hq. Qed.

Lemma onWindowResize_quiet h st c r :
  camera st = Some c -> renderer st = Some r -> quiet h ->
  onWindowResize h st
  = Ok tt (set_renderer (Some (resized_renderer h r))
             (set_camera (Some (resized_camera h c))
                (set_calls (calls st ++ [UpdateProjectionMatrix; SetSize; SetPixelRatio])
                           st))).
Proof.
  intros Hc Hr Hq.
  destruct st as [sc ca re gr cv co rl fr rc cl]. state_simpl. subst ca re.
  unfold onWindowResize, bind, modify, gets, deref, ret. state_simpl.
  repeat (rewrite (lib_quiet h) by assumption; state_simpl).
  unfold resized_camera, resized_renderer. state_unfold.
  rewrite <- !app_assoc. reflexivity.
Qed.

Lemma animate_quiet h st r :
  renderer st = Some r -> quiet h ->
  animate h st
  = Ok tt (set_renderer (Some (mkRenderer (alpha r) (size r) (pixelRatio r)
                                          (clearColor r) (clearAlpha r)
                                          (S (frames r))))
             (set_calls (calls st ++ [Render]) (frame_without_renderer st))).
Proof.
  intros Hr Hq.
  destruct st as [sc ca re gr cv co rl fr rc cl]. state_simpl. subst re.
  unfold animate, frame_without_renderer, bind, requestAnimationFrame, modify,
    gets, deref, ret.
  destruct gr as [g|]; state_simpl;
    rewrite (lib_quiet h) by assumption; reflexivity.
Qed.

(** X12.  With camera and renderer in place and a library that does not throw,
    a frame followed by a resize leaves the same state as the resize
    followed by the frame, up to the order of the calls in the log. *)
Theorem frame_and_resize_commute (h1 h2 : Host) (st : State) :
  ready st -> quiet h1 -> quiet h2 ->
  same_but_calls (run [EFrame h1; EResize h2] st)
                 (run [EResize h2; EFrame h1] st).
Proof.
  intros Hready Hq1 Hq2.
  destruct (ready_assigned st Hready) as (c & r & Hc & Hr).
  unfold run, fold_left, handle.
  rewrite (animate_quiet h1 st r Hr Hq1).
  rewrite (onWindowResize_quiet h2 st c r Hc Hr Hq2).
  cbn [final].
  erewrite onWindowResize_quiet; [| state_simpl; exact Hc | state_simpl; reflexivity | exact Hq2].
  erewrite animate_quiet; [| state_simpl; reflexivity | exact Hq1].
  cbn [final]. unfold same_but_calls, frame_without_renderer, resized_renderer.
  state_simpl. repeat split.
Qed.

Lemma frame_and_resize_commute_witness :
  same_but_calls (run [EFrame host0; EResize host1] state_ready)
                 (run [EResize host1; EFrame host0] state_ready).
Proof.
  refine (frame_and_resize_commute host0 host1 state_ready _ _ _).
  - split; reflexivity.
  - intros l c. reflexivity.
  - intros l c. reflexivity.
Defined.

(** *** The pixel ratio never exceeds 2 *)

Lemma SFcompare_antisym x y c :
  SFcompare x y = Some c -> SFcompare y x = Some (CompOpp c).
Proof.
  destruct x as [sx|sx| |sx mx ex], y as [sy|sy| |sy my ey]; cbn;
    try discriminate;
    try (destruct sx; try destruct sy; intros [= <-]; reflexivity);
    try (destruct sy; intros [= <-]; reflexivity).
  intros [= <-]. f_equal.
  destruct sx, sy; try reflexivity;
    rewrite (BinInt.Z.compare_antisym ex ey);
    destruct (BinInt.Z.compare ex ey); cbn; try reflexivity;
    rewrite !BinPos.Pos.compare_cont_spec; cbn;
    rewrite (BinPos.Pos.compare_antisym mx my);
    destruct (BinPos.Pos.compare mx my); reflexivity.
Qed.

Lemma ltb_antisym x y : (x <? y) = true -> (y <? x) = false.
Proof.
  rewrite !ltb_spec. unfold SFltb.
  destruct (SFcompare (Prim2SF x) (Prim2SF y)) as [[]|] eqn:H; try discriminate.
  intros _. rewrite (SFcompare_antisym _ _ _ H). reflexivity.
Qed.

(** [Math.min(d, 2)] is never above 2, whatever [d] is. *)
Lemma Math_min_cap d : (2 <? Math_min d 2) = false.
Proof.
  unfold Math_min.
  replace (is_nan 2) with false by reflexivity. rewrite orb_false_r.
  destruct (is_nan d); [reflexivity|].
  destruct (d <? 2) eqn:Hlt; [exact (ltb_antisym d 2 Hlt)|].
  destruct (2 <? d) eqn:Hgt; [reflexivity|].
  destruct (is_zero d && get_sign d); [exact Hgt | reflexivity].
Qed.

Ltac capped_now :=
  unfold capped in *; state_simpl;
  first [exact I | assumption | reflexivity | apply Math_min_cap].

Lemma init3DBackground_capped h st :
  capped st -> capped (final (init3DBackground h st)).
Proof.
  intros Hcap.
  apply (wp_final (init3DBackground h) capped).
  unfold init3DBackground. apply wp_try_catch.
  assert (Hcatch : forall e s, capped s ->
            wp (init_catch e) (fun _ => capped) (fun _ => capped) s).
  { intros e s Hs. unfold init_catch.
    destruct s as [sc' ca' re' gr' cv' co' rl' fr' rc' cl'].
    destruct cv'; repeat wp_step; exact Hs. }
  destruct st as [sc ca re gr cv co rl fr rc cl].
  unfold init_try.
  destruct cv as [cv|].
  - repeat (wp_step;
            try solve [lazymatch goal with
                       | |- wp (init_catch _) _ _ _ => apply Hcatch; capped_now
                       end]).
    eapply wp_mono; [| | eapply create_particles_spec; state_simpl; reflexivity].
    + intros _ s [l ->]. unfold loop_changed. state_simpl.
      repeat (wp_step;
              try solve [lazymatch goal with
                         | |- wp (init_catch _) _ _ _ => apply Hcatch; capped_now
                         end]).
      unfold animate.
      repeat (wp_step;
              try solve [lazymatch goal with
                         | |- wp (init_catch _) _ _ _ => apply Hcatch; capped_now
                         end]).
      capped_now.
    + intros e s [_ (l & k & ch & ->)]. apply Hcatch.
      unfold loop_changed. capped_now.
  - repeat wp_step. capped_now.
Qed.

Lemma animate_capped h st : capped st -> capped (final (animate h st)).
Proof.
  intros Hcap. apply (wp_final (animate h) capped).
  destruct st as [sc ca re gr cv co rl fr rc cl]. unfold animate.
  destruct gr as [g|]; destruct re as [r|];
    repeat (wp_step; try solve [capped_now]).
Qed.

Lemma onWindowResize_capped h st : capped st -> capped (final (onWindowResize h st)).
Proof.
  intros Hcap. apply (wp_final (onWindowResize h) capped).
  destruct st as [sc ca re gr cv co rl fr rc cl]. unfold onWindowResize.
  destruct ca as [c|]; destruct re as [r|];
    repeat (wp_step; try solve [capped_now]).
Qed.

Lemma run_capped evs : forall st, capped st -> capped (run evs st).
Proof.
  induction evs as [|ev evs IH]; intros st Hcap; cbn [run fold_left].
  - exact Hcap.
  - apply IH. destruct ev as [h|h|h]; cbn [handle].
    + apply init3DBackground_capped, Hcap.
    + apply animate_capped, Hcap.
    + apply onWindowResize_capped, Hcap.
Qed.

(** X13.  From the state before the script ran, after any sequence of
    initialisations, frames and resizes, on whatever displays and however
    each ended, a renderer that exists has a pixel ratio that is not
    above 2. *)
Theorem pixel_ratio_never_above_2 (cv : option Canvas) (evs : list Event)
  (r : Renderer) :
  renderer (run evs (initial_state cv)) = Some r ->
  (2 <? pixelRatio r) = false.
Proof.
  intros Hr.
  pose proof (run_capped evs (initial_state cv) I) as Hcap.
  unfold capped in Hcap. rewrite Hr in Hcap. exact Hcap.
Qed.

Lemma pixel_ratio_never_above_2_witness :
  exists r,
    renderer (run [EInit host_dense; EFrame host_dense; EResize host_dense]
                  (initial_state (Some canvas0))) = Some r /\
    devicePixelRatio host_dense = 4 /\
    pixelRatio r = 2 /\
    (2 <? pixelRatio r) = false.
Proof.
  eexists. split; [vm_compute; reflexivity|].
  split; [reflexivity|]. split; [reflexivity|].
  eapply (pixel_ratio_never_above_2 (Some canvas0)
            [EInit host_dense; EFrame host_dense; EResize host_dense]).
  vm_compute. reflexivity.
Defined.

(** *** Which random numbers make which particle *)

Lemma nth_error_particles_from h n : forall k i,
  i < n ->
  nth_error (particles_from h k n) i = Some (particle_of h (6 * i + k)).
Proof.
  induction n as [|n IH]; intros k i Hi; [lia|].
  destruct i as [|i]; cbn [particles_from nth_error].
  - reflexivity.
  - rewrite IH by lia. do 2 f_equal. lia.
Qed.

(** X14.  Counting only the calls of [Math.random] the script itself
    makes (not the draws the library makes inside its constructors): a
    completed initialisation makes 3000 of them, and the particle of
    index [i] is made of the results of the script's own calls number
    [6 i] to [6 i + 5]: three for the position, then the x and the z
    rotation, then the one scale factor its three scale components
    share. *)
Theorem particle_from_its_six_numbers (h : Host) (st0 st1 : State)
  (cv : Canvas) (i : nat) :
  canvas st0 = Some cv ->
  init_try h st0 = Ok tt st1 ->
  i < 500 ->
  random_calls st1 = (3000 + random_calls st0)%nat /\
  exists g p,
    group st1 = Some g /\
    nth_error (children g) i = Some p /\
    let k := (6 * i + random_calls st0)%nat in
    position p = mk3 (VNum ((random h k - 0.5) * 50))
                     (VNum ((random h (1 + k) - 0.5) * 50))
                     (VNum ((random h (2 + k) - 0.5) * 50)) /\
    cx (rotation p) = VNum (random h (3 + k) * Math_PI) /\
    cz (rotation p) = VNum (random h (4 + k) * Math_PI) /\
    cx (scale p) = VNum (random h (5 + k) * 0.5 + 0.5) /\
    cy (scale p) = cx (scale p) /\ cz (scale p) = cx (scale p).
Proof.
  intros Hcv Hrun Hi.
  destruct (init_try_completed h st0 cv st1 Hcv Hrun) as [l ->].
  unfold initialised. cbn [random_calls group].
  split; [reflexivity|].
  eexists _, _. split; [reflexivity|]. cbn [children].
  split; [apply nth_error_particles_from; exact Hi|].
  repeat split.
Qed.

Lemma particle_from_its_six_numbers_witness :
  random_calls (final (init_try host1 (initial_state (Some canvas0)))) = 3000%nat /\
  exists g p,
    group (final (init_try host1 (initial_state (Some canvas0)))) = Some g /\
    nth_error (children g) 499 = Some p /\
    let k := (6 * 499 + 0)%nat in
    position p = mk3 (VNum ((random host1 k - 0.5) * 50))
                     (VNum ((random host1 (1 + k) - 0.5) * 50))
                     (VNum ((random host1 (2 + k) - 0.5) * 50)) /\
    cx (rotation p) = VNum (random host1 (3 + k) * Math_PI) /\
    cz (rotation p) = VNum (random host1 (4 + k) * Math_PI) /\
    cx (scale p) = VNum (random host1 (5 + k) * 0.5 + 0.5) /\
    cy (scale p) = cx (scale p) /\ cz (scale p) = cx (scale p).
Proof.
  apply (particle_from_its_six_numbers host1 (initial_state (Some canvas0))
           _ canvas0 499).
  - reflexivity.
  - vm_compute. reflexivity.
  - repeat constructor.
Defined.

(** *** The form after the script *)





(* ================================================================== *)
(** ** The wiring of the page *)

Ltac doc_fields :=
  cbn [year menu_button mobile_menu anchors contact_form form_message
       prevented scrolled
       set_year set_menu_button set_mobile_menu set_anchors set_contact_form
       set_prevented set_scrolled
       href in_mobile_menu click has_submit_button submit
       assigned andb orb negb option_map final] in *.

Lemma internal_add_click l a : internal (add_click l a) = internal a.
Proof. reflexivity. Qed.

(** What the callback leaves behind when [#year] exists. *)
Lemma on_DOMContentLoaded_result b d y :
  year d = Some y ->
  on_DOMContentLoaded b d
  = Ok tt
      (mkDocument
         (Some (NilEmpty.string_of_uint (N.to_uint (fullYear b))))
         (if assigned (menu_button d) && assigned (mobile_menu d)
          then option_map (fun ls => (ls ++ [ToggleMenu])%list) (menu_button d)
          else menu_button d)
         (mobile_menu d)
         (map (wired_anchor (assigned (menu_button d) && assigned (mobile_menu d)))
              (anchors d))
         (option_map (wired_form (form_message d)) (contact_form d))
         (form_message d) (prevented d) (scrolled d)).
Proof.
  destruct d as [yr mb mm an cf fm pr scr]. doc_fields. intros ->.
  assert (Hwire : forall menu : bool,
    map (fun a => if internal a then add_click SmoothScroll a else a)
        (if menu
         then map (fun a => if in_mobile_menu a then add_click HideMenu a else a) an
         else an)
    = map (wired_anchor menu) an).
  { intros menu. destruct menu; [rewrite map_map|]; apply map_ext;
      intros [hr im ck]; unfold wired_anchor, add_click, internal;
      destruct im; cbn [href in_mobile_menu click andb];
      (destruct hr as [hr|]; [destruct (prefix "#" hr)|]);
      cbn [href in_mobile_menu click andb app];
      rewrite <- ?app_assoc, ?app_nil_r; reflexivity. }
  unfold on_DOMContentLoaded, bind, gets, modify, ret. doc_fields.
  destruct mb as [ls|], mm as [cl|]; doc_fields;
    first [rewrite <- (Hwire true) | rewrite <- (Hwire false)]; doc_fields;
    (destruct cf as [[sb sl]|]; doc_fields;
      [destruct fm, sb; doc_fields; unfold wired_form; doc_fields;
       rewrite ?app_nil_r; reflexivity
      | reflexivity]).
Qed.

(** X15.  On a page without [#year] the callback throws at its first statement,
    before anything is wired: no listener is registered anywhere, the
    menu, the links and the form are left as they were. *)
Theorem wiring_needs_year (b : Browser) (d : Document) :
  year d = None ->
  on_DOMContentLoaded b d
  = Throw (TypeError "document.getElementById('year') is null") d.
Proof.
  intros Hy. unfold on_DOMContentLoaded, bind, gets. rewrite Hy. reflexivity.
Qed.

Lemma wiring_needs_year_witness :
  on_DOMContentLoaded browser0 (set_year None document0)
  = Throw (TypeError "document.getElementById('year') is null")
          (set_year None document0).
Proof.
  exact (wiring_needs_year browser0 (set_year None document0) eq_refl).
Defined.

(** X16.  On a page with [#year], the callback shows the current year,
    registers the toggling listener on the menu button exactly when the
    button and the mobile menu both exist, and registers the submit
    listener exactly when the form, a submit button inside it and the
    status element all exist.  The menu's classes are not touched. *)
Theorem wiring_of_menu_and_form (b : Browser) (d : Document) (y : string) :
  year d = Some y ->
  exists d',
    on_DOMContentLoaded b d = Ok tt d' /\
    year d' = Some (NilEmpty.string_of_uint (N.to_uint (fullYear b))) /\
    menu_button d' =
      option_map (fun ls => if assigned (mobile_menu d)
                            then (ls ++ [ToggleMenu])%list else ls)
                 (menu_button d) /\
    contact_form d' =
      option_map (fun f => mkForm (has_submit_button f)
                             (if form_message d && has_submit_button f
                              then (submit f ++ [SubmitForm])%list else submit f))
                 (contact_form d) /\
    mobile_menu d' = mobile_menu d /\
    scrolled d' = scrolled d.
Proof.
  intros Hy. eexists. split; [exact (on_DOMContentLoaded_result b d y Hy)|].
  doc_fields. split; [reflexivity|].
  split; [destruct (menu_button d), (mobile_menu d); reflexivity|].
  split; [| split; reflexivity].
  destruct (contact_form d) as [[sb sl]|]; [|reflexivity].
  unfold wired_form. doc_fields.
  destruct (form_message d), sb; doc_fields; rewrite ?app_nil_r; reflexivity.
Qed.

Lemma wiring_of_menu_and_form_witness :
  exists d',
    on_DOMContentLoaded browser0 document0 = Ok tt d' /\
    year d' = Some "2026" /\
    menu_button d' = Some [ToggleMenu] /\
    contact_form d' = Some (mkForm true [SubmitForm]) /\
    mobile_menu d' = Some ["md:hidden"; "hidden"] /\
    scrolled d' = [].
Proof.
  exact (wiring_of_menu_and_form browser0 document0 "" eq_refl).
Defined.

(** X17.  On a page with [#year], each link ends with the listeners it had,
    then the menu-hiding listener if it is inside the mobile menu and the
    menu button and mobile menu both exist, then the scrolling listener if
    its [href] starts with a hash; its [href] is not changed. *)
Theorem wiring_of_links (b : Browser) (d : Document) (y : string) :
  year d = Some y ->
  exists d',
    on_DOMContentLoaded b d = Ok tt d' /\
    anchors d' =
      map (fun a =>
             mkAnchor (href a) (in_mobile_menu a)
               (click a
                ++ (if assigned (menu_button d) && assigned (mobile_menu d)
                       && in_mobile_menu a
                    then [HideMenu] else [])
                ++ (if match href a with
                       | Some hr => prefix "#" hr
                       | None => false
                       end
                    then [SmoothScroll] else [])))
          (anchors d).
Proof.
  intros Hy. eexists. split; [exact (on_DOMContentLoaded_result b d y Hy)|].
  reflexivity.
Qed.

Lemma wiring_of_links_witness :
  exists d',
    on_DOMContentLoaded browser0 document0 = Ok tt d' /\
    anchors d' =
      [mkAnchor (Some "#about") true [HideMenu; SmoothScroll];
       mkAnchor (Some "https://example.org") true [HideMenu];
       mkAnchor (Some "#") false [SmoothScroll]].
Proof.
  exact (wiring_of_links browser0 document0 "" eq_refl).
Defined.

(** *** The class list of the mobile menu *)

Lemma classList_contains_app c cl t :
  classList_contains c (cl ++ [t]) = classList_contains c cl || String.eqb c t.
Proof.
  unfold classList_contains. rewrite existsb_app. cbn [existsb].
  now rewrite orb_false_r.
Qed.

Lemma classList_contains_remove c t cl :
  classList_contains c (classList_remove t cl)
  = classList_contains c cl && negb (String.eqb c t).
Proof.
  unfold classList_contains, classList_remove.
  induction cl as [|x cl IH]; cbn [filter existsb]; [reflexivity|].
  destruct (String.eqb_spec t x) as [->|Htx]; cbn [negb existsb].
  - rewrite IH. destruct (String.eqb_spec c x) as [->|Hcx]; cbn [orb negb andb].
    + now rewrite andb_false_r.
    + reflexivity.
  - rewrite IH. destruct (String.eqb_spec c x) as [->|Hcx]; cbn [orb].
    + destruct (String.eqb_spec x t) as [->|_]; [now contradiction Htx | reflexivity].
    + reflexivity.
Qed.

Lemma classList_contains_toggle c t cl :
  classList_contains c (classList_toggle t cl)
  = if String.eqb c t then negb (classList_contains t cl)
    else classList_contains c cl.
Proof.
  unfold classList_toggle.
  destruct (classList_contains t cl) eqn:Ht.
  - rewrite classList_contains_remove.
    destruct (String.eqb_spec c t) as [->|_]; cbn [negb].
    + now rewrite andb_false_r.
    + now rewrite andb_true_r.
  - rewrite classList_contains_app.
    destruct (String.eqb_spec c t) as [->|_]; cbn [negb].
    + now rewrite orb_true_r.
    + now rewrite orb_false_r.
Qed.

Lemma classList_contains_add c t cl :
  classList_contains c (classList_add t cl)
  = String.eqb c t || classList_contains c cl.
Proof.
  unfold classList_add.
  destruct (classList_contains t cl) eqn:Ht.
  - destruct (String.eqb_spec c t) as [->|_]; [now rewrite Ht | reflexivity].
  - rewrite classList_contains_app. apply orb_comm.
Qed.

Lemma classList_add_idempotent t cl :
  classList_add t (classList_add t cl) = classList_add t cl.
Proof.
  unfold classList_add at 1. rewrite classList_contains_add.
  now rewrite String.eqb_refl.
Qed.

(** X18.  A click on the menu button, wired on a page that has the mobile menu,
    flips whether the menu carries the class hidden and leaves its other
    classes alone; a second click restores the menu's classes. *)
Theorem menu_button_click_toggles (b : Browser) (d : Document) (cl : list string) :
  menu_button d = Some [ToggleMenu] ->
  mobile_menu d = Some cl ->
  exists cl1 cl2,
    mobile_menu (click_menu_button b d) = Some cl1 /\
    mobile_menu (click_menu_button b (click_menu_button b d)) = Some cl2 /\
    classList_contains "hidden" cl1 = negb (classList_contains "hidden" cl) /\
    (forall c, c <> "hidden" -> classList_contains c cl1 = classList_contains c cl) /\
    (forall c, classList_contains c cl2 = classList_contains c cl).
Proof.
  destruct d as [yr mb mm an cf fm pr scr]. doc_fields. intros -> ->.
  unfold click_menu_button. doc_fields.
  cbn [dispatch listener]. unfold on_mobile_menu, bind, gets, modify. doc_fields.
  cbn [dispatch listener]. unfold on_mobile_menu, bind, gets, modify. doc_fields.
  eexists _, _. split; [reflexivity|]. split; [reflexivity|].
  split; [| split].
  - rewrite classList_contains_toggle. now rewrite String.eqb_refl.
  - intros c Hc. rewrite classList_contains_toggle.
    destruct (String.eqb_spec c "hidden"); [contradiction | reflexivity].
  - intros c. rewrite !classList_contains_toggle.
    rewrite String.eqb_refl.
    destruct (String.eqb_spec c "hidden") as [->|_];
      [apply negb_involutive | reflexivity].
Qed.

Lemma menu_button_click_toggles_witness :
  exists cl1 cl2,
    mobile_menu (click_menu_button browser0 document_wired) = Some cl1 /\
    mobile_menu (click_menu_button browser0
                   (click_menu_button browser0 document_wired)) = Some cl2 /\
    classList_contains "hidden" cl1 = negb (classList_contains "hidden" ["md:hidden"; "hidden"]) /\
    (forall c, c <> "hidden" ->
               classList_contains c cl1 = classList_contains c ["md:hidden"; "hidden"]) /\
    (forall c, classList_contains c cl2 = classList_contains c ["md:hidden"; "hidden"]).
Proof.
  exact (menu_button_click_toggles browser0 document_wired
           ["md:hidden"; "hidden"] eq_refl eq_refl).
Defined.

Lemma smooth_scroll_mobile_menu b a d :
  mobile_menu (final (smooth_scroll b a d)) = mobile_menu d.
Proof.
  unfold smooth_scroll, bind, modify, ret, throw.
  destruct (href a) as [hr|]; [|reflexivity].
  destruct (1 <? String.length hr)%nat; [|reflexivity].
  destruct (querySelector b hr); reflexivity.
Qed.

Lemma dispatch_mobile_menu b a ls : forall d cl,
  mobile_menu d = Some cl ->
  ~ In ToggleMenu ls ->
  mobile_menu (dispatch b a ls d)
  = Some (if existsb is_HideMenu ls then classList_add "hidden" cl else cl).
Proof.
  induction ls as [|l ls IH]; intros d cl Hmm Hno; cbn [dispatch existsb].
  - exact Hmm.
  - assert (Hno' : ~ In ToggleMenu ls) by (intros H; apply Hno; now right).
    destruct l; cbn [listener is_HideMenu orb].
    + exfalso. apply Hno. now left.
    + rewrite (IH _ (classList_add "hidden" cl)); [| | exact Hno'].
      * rewrite classList_add_idempotent. now destruct (existsb is_HideMenu ls).
      * unfold on_mobile_menu, bind, gets, modify. rewrite Hmm. reflexivity.
    + apply IH; [| exact Hno']. rewrite smooth_scroll_mobile_menu. exact Hmm.
    + apply IH; [exact Hmm | exact Hno'].
Qed.

(** X19.  A click on a link that carries the menu-hiding listener always
    leaves the mobile menu with the class hidden, whether it had it or
    not, and with its other classes as they were. *)
Theorem menu_link_click_hides_menu (b : Browser) (a : Anchor) (d : Document)
  (cl : list string) :
  In HideMenu (click a) ->
  ~ In ToggleMenu (click a) ->
  mobile_menu d = Some cl ->
  exists cl',
    mobile_menu (click_anchor b a d) = Some cl' /\
    classList_contains "hidden" cl' = true /\
    forall c, c <> "hidden" -> classList_contains c cl' = classList_contains c cl.
Proof.
  intros Hhide Hno Hmm.
  assert (Hex : existsb is_HideMenu (click a) = true).
  { apply existsb_exists. exists HideMenu. split; [exact Hhide | reflexivity]. }
  exists (classList_add "hidden" cl). split; [| split].
  - unfold click_anchor.
    rewrite (dispatch_mobile_menu b a (click a) _ cl); [now rewrite Hex | exact Hmm | exact Hno].
  - rewrite classList_contains_add. now rewrite String.eqb_refl.
  - intros c Hc. rewrite classList_contains_add.
    destruct (String.eqb_spec c "hidden"); [contradiction | reflexivity].
Qed.

Lemma menu_link_click_hides_menu_witness :
  exists cl',
    mobile_menu (click_anchor browser0
                   (mkAnchor (Some "#about") true [HideMenu; SmoothScroll])
                   (click_menu_button browser0 document_wired)) = Some cl' /\
    classList_contains "hidden" cl' = true /\
    forall c, c <> "hidden" -> classList_contains c cl' = classList_contains c ["md:hidden"].
Proof.
  refine (menu_link_click_hides_menu browser0
            (mkAnchor (Some "#about") true [HideMenu; SmoothScroll])
            (click_menu_button browser0 document_wired) ["md:hidden"] _ _ eq_refl).
  - left. reflexivity.
  - intros [H | [H | []]]; discriminate H.
Defined.

(** X20.  A click on an internal link, wired as the callback wires it: when its
    [href] is longer than one character the default action is prevented,
    and the page scrolls to the element the [href] selects if there is
    one, and otherwise does nothing; when the [href] is the bare hash,
    nothing is prevented and nothing is scrolled. *)
Theorem internal_link_click (b : Browser) (a : Anchor) (d : Document)
  (hr : string) :
  href a = Some hr ->
  click a = [SmoothScroll] \/ click a = [HideMenu; SmoothScroll] ->
  prevented (click_anchor b a d) = (1 <? String.length hr)%nat /\
  scrolled (click_anchor b a d) = (scrolled d ++ scroll_target b hr)%list.
Proof.
  intros Hhref Hclick.
  destruct d as [yr mb mm an cf fm pr scr].
  unfold click_anchor, scroll_target.
  destruct Hclick as [-> | ->]; cbn [dispatch listener];
    unfold on_mobile_menu, smooth_scroll, bind, gets, modify, ret, throw;
    rewrite Hhref; doc_fields;
    try destruct mm as [cl|]; doc_fields;
    destruct (1 <? String.length hr)%nat; doc_fields;
    try destruct (querySelector b hr); doc_fields;
    rewrite ?app_nil_r; split; reflexivity.
Qed.

Lemma internal_link_click_witness :
  prevented (click_anchor browser0
               (mkAnchor (Some "#about") true [HideMenu; SmoothScroll])
               document_wired)
  = (1 <? String.length "#about")%nat /\
  scrolled (click_anchor browser0
              (mkAnchor (Some "#about") true [HideMenu; SmoothScroll])
              document_wired)
  = (scrolled document_wired ++ scroll_target browser0 "#about")%list.
Proof.
  refine (internal_link_click browser0
            (mkAnchor (Some "#about") true [HideMenu; SmoothScroll])
            document_wired "#about" eq_refl _).
  right. reflexivity.
Defined.
